(** * Trading Strategy Backtester front end (src/frontend/frontend.py)

    A shallow embedding of the Streamlit script: the Python values it
    manipulates, the pandas operations it calls on the trade table, the
    session state it keeps across reruns, and the script itself as a state
    and exception passing function of one rerun.  The second half of the
    file proves the properties of the specification against that
    embedding. *)

From Stdlib Require Import ZArith List String Ascii Bool Lia.
From Stdlib Require Import Floats.SpecFloat.
From Stdlib Require DecimalString.
Import ListNotations.

Local Open Scope string_scope.
Local Open Scope Z_scope.

(* ================================================================== *)
(** * Python runtime values                                            *)
(* ================================================================== *)

(** Exceptions the script can meet.  [RequestException] is what
    [requests.get]/[requests.post] raise when the transport fails; it
    carries the text [str(e)] gives. *)
Inductive exn : Type :=
| ZeroDivisionError
| OverflowError
| ValueError (msg : string)
| KeyError (labels : list string)
| AttributeError (name : string)
| JSONDecodeError
| RequestException (msg : string).

(** The quotation mark that [repr] puts around a text that holds
    apostrophes. *)
Definition quotation_mark : string := String (ascii_of_nat 34) EmptyString.

(** [repr] of a list of labels that hold neither quotes nor backslashes,
    as the names of the display columns are: ['a', 'b']. *)
Definition repr_labels (labels : list string) : string :=
  "[" ++ String.concat ", " (map (fun l => "'" ++ l ++ "'") labels) ++ "]".

(** [str(e)].  The texts of the interpreter's own exceptions are the
    interpreter's.  A [KeyError] is the one pandas raises when labels of
    a selection are not columns: its message is the list of these labels
    followed by " not in index", and [str] of a [KeyError] is the [repr]
    of its message, here the message between quotation marks. *)
Definition str_exn (e : exn) : string :=
  match e with
  | ZeroDivisionError => "division by zero"
  | OverflowError => "cannot convert float infinity to integer"
  | ValueError msg => msg
  | KeyError labels =>
      quotation_mark ++ repr_labels labels ++ " not in index" ++ quotation_mark
  | AttributeError name => "object has no attribute " ++ name
  | JSONDecodeError => "Expecting value: line 1 column 1 (char 0)"
  | RequestException msg => msg
  end.

(** The outcome of evaluating a Python expression. *)
Inductive result (A : Type) : Type :=
| Ok (a : A)
| Raise (e : exn).
Arguments Ok {A} a.
Arguments Raise {A} e.

Definition result_bind {A B} (r : result A) (k : A -> result B) : result B :=
  match r with
  | Ok a => k a
  | Raise e => Raise e
  end.

Fixpoint result_map {A B} (f : A -> result B) (l : list A) : result (list B) :=
  match l with
  | [] => Ok []
  | x :: l' =>
      result_bind (f x) (fun y =>
      result_bind (result_map f l') (fun ys => Ok (y :: ys)))
  end.

(** [dict.get(key, default)] on a key that is present or not. *)
Definition get {A} (field : option A) (default : A) : A :=
  match field with
  | Some v => v
  | None => default
  end.

(** [str(n)] for a Python [int]. *)
Definition str_int (n : Z) : string :=
  DecimalString.NilZero.string_of_int (Z.to_int n).

(** ** Python floats: IEEE 754 binary64 *)

Module Float.

Definition prec : Z := 53.
Definition emax : Z := 1024.

Definition float : Type := spec_float.

Definition nan : float := S754_nan.

(** [float(n)], exact for |n| below 2^53. *)
Definition of_int (n : Z) : float := binary_normalize prec emax n 0 false.

Definition mul : float -> float -> float := SFmul prec emax.
Definition div : float -> float -> float := SFdiv prec emax.

Definition is_nan (x : float) : bool :=
  match x with
  | S754_nan => true
  | _ => false
  end.

Definition is_finite (x : float) : bool :=
  match x with
  | S754_zero _ | S754_finite _ _ _ => true
  | _ => false
  end.

Definition eqb (x y : float) : bool :=
  match x, y with
  | S754_zero s, S754_zero s' => Bool.eqb s s'
  | S754_infinity s, S754_infinity s' => Bool.eqb s s'
  | S754_nan, S754_nan => true
  | S754_finite s m e, S754_finite s' m' e' =>
      Bool.eqb s s' && Pos.eqb m m' && Z.eqb e e'
  | _, _ => false
  end.

(** [int(x)]: truncation toward zero. *)
Definition to_int (x : float) : result Z :=
  match x with
  | S754_zero _ => Ok 0
  | S754_infinity _ => Raise OverflowError
  | S754_nan => Raise (ValueError "cannot convert float NaN to integer")
  | S754_finite s m e =>
      let mag := if 0 <=? e then Zpos m * 2 ^ e else Zpos m / 2 ^ (- e) in
      Ok (if s then - mag else mag)
  end.

(** Nearest integer to [num / den], ties to even ([0 <= num], [0 < den]). *)
Definition round_half_even (num den : Z) : Z :=
  let q := num / den in
  let r := num mod den in
  match 2 * r ?= den with
  | Lt => q
  | Gt => q + 1
  | Eq => if Z.even q then q else q + 1
  end.

(** |x| in hundredths, correctly rounded, for x = m * 2^e. *)
Definition hundredths (m : positive) (e : Z) : Z :=
  if 0 <=? e then Zpos m * 2 ^ e * 100
  else round_half_even (Zpos m * 100) (2 ^ (- e)).

Definition digit (d : Z) : string :=
  String (ascii_of_nat (48 + Z.to_nat d)) EmptyString.

Definition fixed2 (neg : bool) (h : Z) : string :=
  (if neg then "-" else "") ++ str_int (h / 100) ++ "."
    ++ digit (h mod 100 / 10) ++ digit (h mod 10).

(** [format(x, ".2f")]. *)
Definition format_2f (x : float) : string :=
  match x with
  | S754_zero s => fixed2 s 0
  | S754_infinity s => if s then "-inf" else "inf"
  | S754_nan => "nan"
  | S754_finite s m e => fixed2 s (hundredths m e)
  end.

End Float.

Definition float : Type := Float.float.

(** [a / b] on two Python [int]s: true division, the correctly rounded
    quotient (computed on the operands' float values, which is the same
    below 2^53). *)
Definition truediv (a b : Z) : result float :=
  if b =? 0 then Raise ZeroDivisionError
  else Ok (Float.div (Float.of_int a) (Float.of_int b)).

(** [int(winning / total * 100)], line 177. *)
Definition win_rate_percent (winning total : Z) : result Z :=
  result_bind (truediv winning total) (fun ratio =>
  Float.to_int (Float.mul ratio (Float.of_int 100))).

(** ** JSON scalars and objects *)

(** A scalar of a JSON row.  Numbers are held at their float value, the
    value pandas gives them in a numeric column. *)
Inductive cell : Type :=
| CNum (x : float)
| CStr (s : string).

(** A JSON object as parsed by [json.loads]: a [dict] in insertion order. *)
Definition dict : Type := list (string * cell).

Fixpoint lookup (key : string) (d : dict) : option cell :=
  match d with
  | [] => None
  | (k, v) :: d' => if String.eqb key k then Some v else lookup key d'
  end.

(** A value stored in the request payload. *)
Inductive pyvalue : Type :=
| PNone
| PBool (b : bool)
| PInt (n : Z)
| PFloat (x : float)
| PStr (s : string).

Definition payload_dict : Type := list (string * pyvalue).

Fixpoint subscript (d : payload_dict) (key : string) : result pyvalue :=
  match d with
  | [] => Raise (KeyError [key])
  | (k, v) :: d' => if String.eqb key k then Ok v else subscript d' key
  end.

(** [s.replace(old, "")] for a one-character [old]. *)
Fixpoint remove_char (old : ascii) (s : string) : string :=
  match s with
  | EmptyString => EmptyString
  | String c s' =>
      if Ascii.eqb c old then remove_char old s'
      else String c (remove_char old s')
  end.

(** ** Dates *)

Record datetime : Type := { year : Z; month : Z; day : Z }.

Definition zero_pad2 (n : Z) : string :=
  Float.digit (n / 10 mod 10) ++ Float.digit (n mod 10).

(** [d.strftime('%Y%m%d')], for the years 1000 to 9999. *)
Definition strftime_Ymd (d : datetime) : string :=
  zero_pad2 (year d / 100) ++ zero_pad2 (year d) ++ zero_pad2 (month d)
    ++ zero_pad2 (day d).

(* ================================================================== *)
(** * CSV text, as the [csv] module writes it                          *)
(* ================================================================== *)

Module Csv.

Definition comma : ascii := ","%char.
Definition dquote : ascii := ascii_of_nat 34.
Definition LF : ascii := ascii_of_nat 10.
Definition CR : ascii := ascii_of_nat 13.

Definition newline : string := String LF EmptyString.

(** The characters that make the writer quote a field: the delimiter,
    the quote character and the characters of the line terminator,
    which is the line feed alone in [to_csv]; a carriage return is not
    among them. *)
Definition special (c : ascii) : bool :=
  Ascii.eqb c comma || Ascii.eqb c dquote || Ascii.eqb c LF.

(** The reader ends a record at a line feed and at a carriage return. *)
Definition line_end (c : ascii) : bool :=
  Ascii.eqb c LF || Ascii.eqb c CR.

Fixpoint needs_quote (s : string) : bool :=
  match s with
  | EmptyString => false
  | String c s' => special c || needs_quote s'
  end.

Fixpoint double_quotes (s : string) : string :=
  match s with
  | EmptyString => EmptyString
  | String c s' =>
      if Ascii.eqb c dquote then String dquote (String dquote (double_quotes s'))
      else String c (double_quotes s')
  end.

Definition quoted (s : string) : string :=
  String dquote (double_quotes s ++ String dquote EmptyString).

(** QUOTE_MINIMAL: a field is quoted when it holds a comma, a quote or
    a line feed, and its quotes are doubled. *)
Definition field (s : string) : string :=
  if needs_quote s then quoted s else s.

(** The fields of one record, separated by commas. *)
Fixpoint joined (fields : list string) : string :=
  match fields with
  | [] => EmptyString
  | [f] => field f
  | f :: fields' => field f ++ String comma (joined fields')
  end.

(** One record; a lone empty field is written quoted, so that the line
    is not blank. *)
Definition line (fields : list string) : string :=
  match fields with
  | [EmptyString] => quoted EmptyString ++ newline
  | _ => joined fields ++ newline
  end.

Fixpoint write (rows : list (list string)) : string :=
  match rows with
  | [] => EmptyString
  | r :: rows' => line r ++ write rows'
  end.

(** The reader of that dialect: outside quotes a comma ends the field
    and a line feed or a carriage return ends the record; blank lines
    are skipped, so a carriage return followed by a line feed ends one
    record. *)
Inductive state : Type := FieldStart | InField | InQuoted | AfterQuote.

Definition snoc (s : string) (c : ascii) : string :=
  s ++ String c EmptyString.

Definition add_row (r : list string)
    (rest : option (list (list string))) : option (list (list string)) :=
  option_map (cons r) rest.

Fixpoint parse (st : state) (fld : string) (row : list string) (s : string)
    : option (list (list string)) :=
  match s with
  | EmptyString =>
      match st, row with
      | InQuoted, _ => None
      | FieldStart, [] => Some []
      | _, _ => Some [rev (fld :: row)]
      end
  | String c s' =>
      match st with
      | FieldStart =>
          if Ascii.eqb c dquote then parse InQuoted EmptyString row s'
          else if Ascii.eqb c comma then
            parse FieldStart EmptyString (EmptyString :: row) s'
          else if line_end c then
            match row with
            | [] => parse FieldStart EmptyString [] s'
            | _ => add_row (rev (EmptyString :: row))
                     (parse FieldStart EmptyString [] s')
            end
          else parse InField (String c EmptyString) row s'
      | InField | AfterQuote =>
          if Ascii.eqb c comma then
            parse FieldStart EmptyString (fld :: row) s'
          else if line_end c then
            add_row (rev (fld :: row)) (parse FieldStart EmptyString [] s')
          else
            match st with
            | AfterQuote =>
                if Ascii.eqb c dquote then parse InQuoted (snoc fld c) row s'
                else parse InField (snoc fld c) row s'
            | _ => parse InField (snoc fld c) row s'
            end
      | InQuoted =>
          if Ascii.eqb c dquote then parse AfterQuote fld row s'
          else parse InQuoted (snoc fld c) row s'
      end
  end.

Definition read (s : string) : option (list (list string)) :=
  parse FieldStart EmptyString [] s.

(** A field reads back as written when it is quoted or holds no
    carriage return: an unquoted carriage return ends the record. *)
Fixpoint has_cr (s : string) : bool :=
  match s with
  | EmptyString => false
  | String c s' => Ascii.eqb c CR || has_cr s'
  end.

Definition safe (s : string) : bool := needs_quote s || negb (has_cr s).

End Csv.

(* ================================================================== *)
(** * The pandas operations of the script                              *)
(* ================================================================== *)

Module DataFrame.

(** A frame: the column labels and, per row, one cell per label. *)
Record t : Type := { columns : list string; rows : list (list cell) }.

Definition NaN : cell := CNum Float.nan.

(** [label in df.columns] *)
Definition contains (label : string) (labels : list string) : bool :=
  existsb (String.eqb label) labels.

Definition add_label (labels : list string) (label : string) : list string :=
  if contains label labels then labels else (labels ++ [label])%list.

(** The labels of a list of dicts: every key, in order of first
    appearance. *)
Definition labels_of (records : list dict) : list string :=
  fold_left (fun labels d => fold_left add_label (map fst d) labels)
    records [].

(** [pd.DataFrame(records)]: a missing key gives NaN. *)
Definition from_records (records : list dict) : t :=
  let labels := labels_of records in
  {| columns := labels;
     rows := map (fun d => map (fun l => get (lookup l d) NaN) labels)
               records |}.

Fixpoint position (label : string) (labels : list string) : nat :=
  match labels with
  | [] => O
  | l :: labels' => if String.eqb label l then O else S (position label labels')
  end.

Definition at_label (df : t) (row : list cell) (label : string) : cell :=
  nth (position label (columns df)) row NaN.

Fixpoint replace_nth (n : nat) (v : cell) (row : list cell) : list cell :=
  match row, n with
  | [], _ => []
  | _ :: row', O => v :: row'
  | c :: row', S n' => c :: replace_nth n' v row'
  end.

(** [df[label] = value] with a scalar: the column is overwritten, or
    appended as the last one. *)
Definition setitem (df : t) (label : string) (value : cell) : t :=
  if contains label (columns df) then
    {| columns := columns df;
       rows := map (replace_nth (position label (columns df)) value) (rows df) |}
  else
    {| columns := (columns df ++ [label])%list;
       rows := map (fun r => (r ++ [value])%list) (rows df) |}.

(** [df[labels].copy()]: a new frame with these columns in this order;
    [KeyError] names the labels that are not columns. *)
Definition getitem (df : t) (labels : list string) : result t :=
  match filter (fun l => negb (contains l (columns df))) labels with
  | [] =>
      Ok {| columns := labels;
            rows := map (fun r => map (at_label df r) labels) (rows df) |}
  | missing => Raise (KeyError missing)
  end.

(** [df[label] = df[label].apply(f)] *)
Definition apply_column (df : t) (label : string) (f : cell -> result cell)
    : result t :=
  if contains label (columns df) then
    result_bind
      (result_map
         (fun r =>
            result_bind (f (at_label df r label)) (fun v =>
            Ok (replace_nth (position label (columns df)) v r)))
         (rows df))
      (fun rows' => Ok {| columns := columns df; rows := rows' |})
  else Raise (KeyError [label]).

Section ToCsv.

(** [repr] of a float, the text pandas writes for a number. *)
Variable repr_float : float -> string.

(** NaN is written as the empty field. *)
Definition cell_text (c : cell) : string :=
  match c with
  | CNum x => if Float.is_nan x then EmptyString else repr_float x
  | CStr s => s
  end.

(** [df.to_csv(index=False)] *)
Definition to_csv (df : t) : string :=
  Csv.write (columns df :: map (map cell_text) (rows df)).

End ToCsv.

End DataFrame.

(* ================================================================== *)
(** * Session state, sidebar inputs, backend and page                  *)
(* ================================================================== *)

(** [st.session_state]: the four keys the script uses; [None] is a key
    that is not set.  [selected_exchange] is written by its select box on
    every run; with no exchange to offer the box holds Python's [None],
    which is [None] here as well. *)
Record SessionState : Type := {
  exchanges : option (list string);
  symbols : option (list string);
  selected_exchange : option string;
  selected_symbol : option string
}.

Definition set_exchanges (v : list string) (s : SessionState) : SessionState :=
  {| exchanges := Some v; symbols := symbols s;
     selected_exchange := selected_exchange s;
     selected_symbol := selected_symbol s |}.

Definition set_symbols (v : list string) (s : SessionState) : SessionState :=
  {| exchanges := exchanges s; symbols := Some v;
     selected_exchange := selected_exchange s;
     selected_symbol := selected_symbol s |}.

Definition set_selected_exchange (v : option string) (s : SessionState)
    : SessionState :=
  {| exchanges := exchanges s; symbols := symbols s;
     selected_exchange := v;
     selected_symbol := selected_symbol s |}.

Definition set_selected_symbol (v : option string) (s : SessionState)
    : SessionState :=
  {| exchanges := exchanges s; symbols := symbols s;
     selected_exchange := selected_exchange s;
     selected_symbol := v |}.

(** A session that has just started. *)
Definition new_session : SessionState :=
  {| exchanges := None; symbols := None;
     selected_exchange := None; selected_symbol := None |}.

Inductive TradeType : Type := long | short.

Inductive Strategy : Type :=
  RSI | MA | RAMSEY | KAGE | KITSUNE | RYU | SAKURA | HIKARI | TENSHI | ZEN.

Definition str_trade_type (t : TradeType) : string :=
  match t with long => "long" | short => "short" end.

Definition str_strategy (st : Strategy) : string :=
  match st with
  | RSI => "RSI" | MA => "MA" | RAMSEY => "RAMSEY" | KAGE => "KAGE"
  | KITSUNE => "KITSUNE" | RYU => "RYU" | SAKURA => "SAKURA"
  | HIKARI => "HIKARI" | TENSHI => "TENSHI" | ZEN => "ZEN"
  end.

(** The values of the sidebar inputs in one run (lines 88-140). *)
Record Sidebar : Type := {
  username : string;
  rsi_period : Z;
  buy_threshold : float;
  sell_threshold : float;
  ma_period : Z;
  trade_type : TradeType;
  strategy : Strategy;
  use_scratch_rsi : bool;
  use_csv : bool
}.

(** What the user did to cause the run.  A pick in a select box is
    written to its session key before the script runs; a click makes its
    button return [True] in this run only. *)
Inductive event : Type :=
| Rerun
| PickExchange (exchange : string)
| PickSymbol (symbol : string)
| ClickFetchSymbols
| ClickRunBacktest.

Definition apply_event (ev : event) (s : SessionState) : SessionState :=
  match ev with
  | PickExchange e => set_selected_exchange (Some e) s
  | PickSymbol y => set_selected_symbol (Some y) s
  | _ => s
  end.

Definition is_fetch_symbols (ev : event) : bool :=
  match ev with ClickFetchSymbols => true | _ => false end.

Definition is_run_backtest (ev : event) : bool :=
  match ev with ClickRunBacktest => true | _ => false end.

(** [st.selectbox(label, options, key=...)], as Streamlit keeps a keyed
    select box: the stored value when it is one of the options, else the
    first option, else [None]. *)
Definition selectbox (options : list string) (current : option string)
    : option string :=
  match current with
  | Some v =>
      if existsb (String.eqb v) options then Some v else hd_error options
  | None => hd_error options
  end.

(** ** The backend's answers *)

Record Response (A : Type) : Type := {
  status_code : Z;
  text : string;
  json : option A        (* [None]: the body is not JSON, [.json()] raises *)
}.
Arguments status_code {A} r.
Arguments text {A} r.
Arguments json {A} r.

Inductive reply (A : Type) : Type :=
| Answered (r : Response A)
| Failed (e : exn).      (* the transport raised *)
Arguments Answered {A} r.
Arguments Failed {A} e.

(** [{"exchanges": [...]}] and [{"symbols": [...]}]; the member may be
    absent. *)
Record ExchangesBody : Type := { exchanges_member : option (list string) }.
Record SymbolsBody : Type := { symbols_member : option (list string) }.

Record Summary : Type := {
  total_trades : option Z;
  winning_trades : option Z;
  total_profit_pct : option float;
  avg_profit_per_trade : option float
}.

Definition empty_summary : Summary :=
  {| total_trades := None; winning_trades := None;
     total_profit_pct := None; avg_profit_per_trade := None |}.

(** The envelope [/trade] answers with; each member may be absent. *)
Record BacktestResult : Type := {
  trades : option (list dict);
  data : option (list dict);
  plot : option string;
  summary : option Summary
}.

Record Backend : Type := {
  exchanges_endpoint : reply ExchangesBody;
  symbols_endpoint : string -> reply SymbolsBody;   (* by [exchange=] value *)
  trade_endpoint : payload_dict -> reply BacktestResult
}.

Inductive request : Type :=
| GET (url : string)
| POST (url : string) (body : payload_dict).

Definition is_post (rq : request) : bool :=
  match rq with
  | POST _ _ => true
  | GET _ => false
  end.

(** ** What a run draws *)

Inductive element : Type :=
| st_error (body : string)
| st_info (body : string)
| st_success (body : string)
| st_subheader (body : string)
| st_metric (label value : string)
| st_image (src : string)
| st_dataframe (df : DataFrame.t)
| st_download_button (label data file_name mime : string)
| st_selectbox (label : string) (options : list string) (value : option string).

(** ** The script monad: session, page and requests sent, with exceptions *)

Record World : Type := {
  session : SessionState;
  page : list element;
  sent : list request
}.

Definition M (A : Type) : Type := World -> result A * World.

Definition ret {A} (a : A) : M A := fun w => (Ok a, w).

Definition bind {A B} (m : M A) (k : A -> M B) : M B :=
  fun w =>
    match m w with
    | (Ok a, w') => k a w'
    | (Raise e, w') => (Raise e, w')
    end.

Notation "x <- m ;; k" := (bind m (fun x => k))
  (at level 61, m at next level, right associativity).
Notation "m ;; k" := (bind m (fun _ => k))
  (at level 61, right associativity).

Definition lift {A} (r : result A) : M A := fun w => (r, w).

Definition try_except {A} (body : M A) (handler : exn -> M A) : M A :=
  fun w =>
    match body w with
    | (Ok a, w') => (Ok a, w')
    | (Raise e, w') => handler e w'
    end.

Definition read_session : M SessionState := fun w => (Ok (session w), w).

Definition update_session (f : SessionState -> SessionState) : M unit :=
  fun w =>
    (Ok tt, {| session := f (session w); page := page w; sent := sent w |}).

Definition emit (e : element) : M unit :=
  fun w =>
    (Ok tt,
     {| session := session w; page := (page w ++ [e])%list; sent := sent w |}).

(** One round trip: the request is sent once and its outcome returned. *)
Definition http {A} (rq : request) (r : reply A) : M (Response A) :=
  fun w =>
    let w' :=
      {| session := session w; page := page w;
         sent := (sent w ++ [rq])%list |} in
    match r with
    | Answered resp => (Ok resp, w')
    | Failed e => (Raise e, w')
    end.

(** [r.json()] *)
Definition response_json {A} (r : Response A) : result A :=
  match json r with
  | Some body => Ok body
  | None => Raise JSONDecodeError
  end.

(** [st.session_state.name] *)
Definition attribute {A} (name : string) (field : option A) : result A :=
  match field with
  | Some v => Ok v
  | None => Raise (AttributeError name)
  end.

(* ================================================================== *)
(** * The script                                                       *)
(* ================================================================== *)

(** The script runs from top to bottom on every interaction.  What is
    embedded is what depends on the session, the inputs and the backend:
    the start-up fetch (lines 41-48), the exchange and symbol expander
    (lines 61-84) and the results column (lines 146-225).  The page
    configuration, the style sheet, the title, the spinners and the two
    tabs of static text draw the same on every run and are left out. *)

Definition display_columns : list string :=
  ["symbol"; "trade_type"; "entry_time"; "entry_price"; "entry_rsi";
   "exit_time"; "exit_price"; "exit_rsi"; "profit_pct"].

(** Lines 194-195, the body of the loop: a column that is missing is
    added to [trade_df] itself, filled with the empty string. *)
Definition ensure_column (trade_df : DataFrame.t) (col : string) : DataFrame.t :=
  if negb (DataFrame.contains col (DataFrame.columns trade_df))
  then DataFrame.setitem trade_df col (CStr "")
  else trade_df.

(** Lines 193-195. *)
Definition ensure_optional_columns (trade_df : DataFrame.t) : DataFrame.t :=
  fold_left ensure_column ["entry_rsi"; "exit_rsi"] trade_df.

(** [lambda x: f"{x:.2f}%"], line 199. *)
Definition percent_2f (x : cell) : result cell :=
  match x with
  | CNum v => Ok (CStr (Float.format_2f v ++ "%"))
  | CStr _ => Raise (ValueError "Unknown format code 'f' for object of type 'str'")
  end.

(** Lines 191-199: [trade_df] as the loop leaves it, and
    [trade_df_display], the copy that is shown. *)
Definition shape_trades (trades : list dict)
    : result (DataFrame.t * DataFrame.t) :=
  let trade_df := ensure_optional_columns (DataFrame.from_records trades) in
  result_bind (DataFrame.getitem trade_df display_columns)
    (fun trade_df_display =>
  result_bind (DataFrame.apply_column trade_df_display "profit_pct" percent_2f)
    (fun trade_df_display => Ok (trade_df, trade_df_display))).

(** [payload['symbol'].replace('/', '')] *)
Definition replace_slash (v : pyvalue) : result string :=
  match v with
  | PStr s => Ok (remove_char "/"%char s)
  | _ => Raise (AttributeError "replace")
  end.

(** Line 209. *)
Definition file_name (symbol_no_slash : string) (now : datetime) : string :=
  "trades_" ++ symbol_no_slash ++ strftime_Ymd now ++ ".csv".

(** Truthiness of a list and of a string. *)
Definition nonempty {A} (l : list A) : bool :=
  match l with [] => false | _ => true end.

Definition nonempty_str (s : string) : bool :=
  match s with EmptyString => false | _ => true end.

Section Script.

(** [repr] on floats, used where a float is turned into text by
    [str]/[to_csv]; the digits Python chooses are not modelled. *)
Variable repr_float : float -> string.

Variable backend : Backend.

(** [datetime.datetime.now()] as read at line 209. *)
Variable now : datetime.

Variable inputs : Sidebar.

(** [str(v)], as an f-string interpolates it. *)
Definition str_py (v : pyvalue) : string :=
  match v with
  | PNone => "None"
  | PBool true => "True"
  | PBool false => "False"
  | PInt n => str_int n
  | PFloat x => repr_float x
  | PStr s => s
  end.

Definition py_optional (v : option string) : pyvalue :=
  match v with
  | Some s => PStr s
  | None => PNone
  end.

(** Lines 41-48. *)
Definition fetch_exchanges : M unit :=
  s <- read_session ;;
  match exchanges s with
  | Some _ => ret tt
  | None =>
      r <- http (GET "http://127.0.0.1:8080/exchanges")
             (exchanges_endpoint backend) ;;
      if status_code r =? 200 then
        body <- lift (response_json r) ;;
        update_session (set_exchanges (get (exchanges_member body) []))
      else
        emit (st_error "Error fetching exchanges.") ;;
        update_session (set_exchanges [])
  end.

(** Lines 61-84. *)
Definition exchange_and_symbol (ev : event) : M unit :=
  s <- read_session ;;
  options <- lift (attribute "exchanges" (exchanges s)) ;;
  let selected_exchange := selectbox options (selected_exchange s) in
  update_session (set_selected_exchange selected_exchange) ;;
  emit (st_selectbox "Select Exchange" options selected_exchange) ;;
  (if is_fetch_symbols ev then
     let exchange := str_py (py_optional selected_exchange) in
     r2 <- http (GET ("http://127.0.0.1:8080/symbols?exchange=" ++ exchange))
             (symbols_endpoint backend exchange) ;;
     if status_code r2 =? 200 then
       body <- lift (response_json r2) ;;
       update_session (set_symbols (get (symbols_member body) [])) ;;
       emit (st_success ("Symbols loaded for " ++ exchange ++ "."))
     else
       emit (st_error "Error fetching symbols.") ;;
       update_session (set_symbols [])
   else ret tt) ;;
  s <- read_session ;;
  match symbols s with
  | Some (y :: ys) =>
      let selected_symbol := selectbox (y :: ys) (selected_symbol s) in
      update_session (set_selected_symbol selected_symbol) ;;
      emit (st_selectbox "Select Symbol" (y :: ys) selected_symbol)
  | _ => emit (st_info "Click 'Fetch Symbols' to load available symbols.")
  end.

(** Lines 148-160. *)
Definition payload (s : SessionState) : payload_dict :=
  [ ("exchange", py_optional (selected_exchange s));
    ("symbol", PStr (get (selected_symbol s) "BTC/USDT"));
    ("username", PStr (username inputs));
    ("rsi_period", PInt (rsi_period inputs));
    ("buy_threshold", PFloat (buy_threshold inputs));
    ("sell_threshold", PFloat (sell_threshold inputs));
    ("trade_type", PStr (str_trade_type (trade_type inputs)));
    ("strategy", PStr (str_strategy (strategy inputs)));
    ("ma_period", PInt (ma_period inputs));
    ("use_scratch_rsi", PBool (use_scratch_rsi inputs));
    ("use_csv", PBool (use_csv inputs)) ].

(** Lines 171-181: the four metrics. *)
Definition summary_metrics (summary : Summary) : M unit :=
  emit (st_metric "Total Trades" (str_int (get (total_trades summary) 0))) ;;
  let winning := get (winning_trades summary) 0 in
  let total := get (total_trades summary) 1 in
  percent <- lift (win_rate_percent winning total) ;;
  emit (st_metric "Winning Trades"
          (str_int winning ++ " (" ++ str_int percent ++ "%)")) ;;
  emit (st_metric "Total Return"
          (Float.format_2f (get (total_profit_pct summary) (Float.of_int 0))
             ++ "%")) ;;
  emit (st_metric "Avg. Trade"
          (Float.format_2f
             (get (avg_profit_per_trade summary) (Float.of_int 0)) ++ "%")).

(** Lines 189-211: the trade table and the CSV download. *)
Definition trade_details (p : payload_dict) (trades : list dict) : M unit :=
  emit (st_subheader "📋 Trade Details") ;;
  if nonempty trades then
    shaped <- lift (shape_trades trades) ;;
    let trade_df := fst shaped in
    let trade_df_display := snd shaped in
    emit (st_dataframe trade_df_display) ;;
    let csv_data := DataFrame.to_csv repr_float trade_df in
    symbol <- lift (subscript p "symbol") ;;
    name <- lift (replace_slash symbol) ;;
    emit (st_download_button "Download Trade Data (CSV)" csv_data
            (file_name name now) "text/csv")
  else
    emit (st_info "No trades executed. Adjust parameters.").

(** Lines 164-218: the branch of a 200 answer. *)
Definition render_results (p : payload_dict) (result : BacktestResult)
    : M unit :=
  let trades := get (trades result) [] in
  let historical_data := get (data result) [] in
  let plot_img := get (plot result) "" in
  let summary := get (summary result) empty_summary in
  symbol <- lift (subscript p "symbol") ;;
  exchange <- lift (subscript p "exchange") ;;
  emit (st_subheader ("Backtest Results for " ++ str_py symbol ++ " on "
                        ++ str_py exchange)) ;;
  summary_metrics summary ;;
  emit (st_subheader "📊 Technical Analysis Plot") ;;
  (if nonempty_str plot_img
   then emit (st_image ("data:image/png;base64," ++ plot_img))
   else emit (st_info "No plot available.")) ;;
  trade_details p trades ;;
  if nonempty historical_data
  then emit (st_dataframe (DataFrame.from_records historical_data))
  else emit (st_info "No historical data available.").

(** Lines 161-223: one POST, then the result or the error. *)
Definition submit (p : payload_dict) : M unit :=
  try_except
    (response <- http (POST "http://127.0.0.1:8080/trade" p)
                   (trade_endpoint backend p) ;;
     if status_code response =? 200 then
       result <- lift (response_json response) ;;
       render_results p result
     else emit (st_error ("Error: " ++ text response)))
    (fun e =>
       emit (st_error ("Connection error: " ++ str_exn e)) ;;
       emit (st_info
               "Ensure the backend server is running on http://127.0.0.1:8080")).

(** Lines 146-241; the static overview text that follows the
    subheader is left out. *)
Definition results_column (ev : event) : M unit :=
  if is_run_backtest ev then
    s <- read_session ;;
    submit (payload s)
  else
    emit (st_info
            "👈 Configure your parameters in the sidebar and click 'Run Backtest'") ;;
    emit (st_subheader "Strategy Overview").

Definition script (ev : event) : M unit :=
  fetch_exchanges ;;
  exchange_and_symbol ev ;;
  results_column ev.

(** One run of the script, from the session the previous run left: what
    it returns (an exception that nothing caught stops it), and the
    session, the page and the requests at its end.  The session keeps a
    selected symbol when the run does not draw the symbol box; that
    Streamlit forgets the state of a widget that a completed run did not
    draw is not modelled. *)
Definition rerun (ev : event) (s : SessionState) : result unit * World :=
  script ev {| session := apply_event ev s; page := []; sent := [] |}.

End Script.

(* ================================================================== *)
(** * Notions the properties are stated with                           *)
(* ================================================================== *)

(** The elements that show a backtest result. *)
Definition is_result_element (e : element) : bool :=
  match e with
  | st_metric _ _ | st_image _ | st_dataframe _
  | st_download_button _ _ _ _ => true
  | _ => false
  end.

Definition shows_result (page : list element) : bool :=
  existsb is_result_element page.

(** A call that did not come back with status 200. *)
Definition failed {A} (r : reply A) : bool :=
  match r with
  | Answered resp => negb (status_code resp =? 200)
  | Failed _ => true
  end.

(** The columns every trade has, and the two a strategy may omit. *)
Definition required_columns : list string :=
  ["symbol"; "trade_type"; "entry_time"; "entry_price"; "exit_time";
   "exit_price"; "profit_pct"].

Definition optional_columns : list string := ["entry_rsi"; "exit_rsi"].

Definition has_key (key : string) (d : dict) : bool :=
  match lookup key d with Some _ => true | None => false end.

Definition is_number (c : option cell) : bool :=
  match c with Some (CNum _) => true | _ => false end.

(** A Trade of the data model: the seven required fields are present and
    [profit_pct] is a number. *)
Definition is_trade (d : dict) : bool :=
  forallb (fun key => has_key key d) required_columns
    && is_number (lookup "profit_pct" d).

Definition lacks (key : string) (trades : list dict) : bool :=
  forallb (fun d => negb (has_key key d)) trades.

(** The frame whose cell in row [d] and column [l] is [g d l]. *)
Definition frame_of (g : dict -> string -> cell) (labels : list string)
    (records : list dict) : DataFrame.t :=
  {| DataFrame.columns := labels;
     DataFrame.rows := map (fun d => map (g d) labels) records |}.

(** The cell pandas holds for key [l] of record [d]. *)
Definition cell_of (d : dict) (l : string) : cell :=
  get (lookup l d) DataFrame.NaN.

Definition override (g : dict -> string -> cell) (label : string)
    (h : dict -> cell) : dict -> string -> cell :=
  fun d l => if String.eqb l label then h d else g d l.

(** The cell of [trade_df] after lines 193-195: a placeholder in an
    optional column that no trade has. *)
Definition trade_cell (trades : list dict) (d : dict) (l : string) : cell :=
  if existsb (String.eqb l) optional_columns && lacks l trades
  then CStr ""
  else cell_of d l.

(** The cell of [trade_df_display]. *)
Definition display_cell (trades : list dict) (d : dict) (l : string) : cell :=
  if String.eqb l "profit_pct" then
    match trade_cell trades d l with
    | CNum x => CStr (Float.format_2f x ++ "%")
    | c => c
    end
  else trade_cell trades d l.

(** The file name as the specification words it, with an underscore
    between symbol and date. *)
Definition file_name_spec (symbol : string) (now : datetime) : string :=
  "trades_" ++ remove_char "/"%char symbol ++ "_" ++ strftime_Ymd now ++ ".csv".



(** ** A sample session *)

Definition decimal (n d : Z) : float := Float.div (Float.of_int n) (Float.of_int d).

Definition sample_trade : dict :=
  [("symbol", CStr "BTC/USDT"); ("trade_type", CStr "long");
   ("entry_time", CStr "2025-01-05 10:00"); ("entry_price", CNum (decimal 100 1));
   ("exit_time", CStr "2025-01-05, 11:00"); ("exit_price", CNum (decimal 1025 10));
   ("profit_pct", CNum (decimal 25 10))].

Definition sample_summary : Summary :=
  {| total_trades := Some 1; winning_trades := Some 1;
     total_profit_pct := Some (decimal 25 10);
     avg_profit_per_trade := Some (decimal 25 10) |}.

Definition sample_result : BacktestResult :=
  {| trades := Some [sample_trade]; data := None; plot := Some "iVBORw0KGgo=";
     summary := Some sample_summary |}.

(** The spec's scenario of a run without trades. *)
Definition no_trades_result : BacktestResult :=
  {| trades := Some []; data := None; plot := None;
     summary := Some {| total_trades := Some 0; winning_trades := Some 0;
                        total_profit_pct := Some (Float.of_int 0);
                        avg_profit_per_trade := Some (Float.of_int 0) |} |}.

Definition answer {A} (code : Z) (body_text : string) (body : option A)
    : reply A :=
  Answered {| status_code := code; text := body_text; json := body |}.

Definition sample_backend (symbols_reply : reply SymbolsBody)
    (trade_reply : reply BacktestResult) : Backend :=
  {| exchanges_endpoint :=
       answer 200 "" (Some {| exchanges_member := Some ["binance"; "kraken"] |});
     symbols_endpoint := fun _ => symbols_reply;
     trade_endpoint := fun _ => trade_reply |}.

Definition symbols_answer (l : list string) : reply SymbolsBody :=
  answer 200 "" (Some {| symbols_member := Some l |}).

Definition sample_inputs : Sidebar :=
  {| username := "default_user"; rsi_period := 14;
     buy_threshold := decimal 30 1; sell_threshold := decimal 70 1;
     ma_period := 20; trade_type := long; strategy := ZEN;
     use_scratch_rsi := true; use_csv := false |}.

Definition sample_now : datetime := {| year := 2025; month := 1; day := 5 |}.

(** The texts [repr] gives for the numbers of the sample trade. *)
Definition sample_repr (x : float) : string :=
  if Float.eqb x (decimal 25 10) then "2.5"
  else if Float.eqb x (decimal 100 1) then "100.0"
  else if Float.eqb x (decimal 1025 10) then "102.5"
  else "0.0".

(** The spec's scenario of a rejected run. *)
Definition rejected : reply BacktestResult :=
  answer 500 "strategy error: invalid period" None.

(** The session once the exchanges are loaded. *)
Definition ready_session : SessionState :=
  {| exchanges := Some ["binance"; "kraken"]; symbols := None;
     selected_exchange := Some "binance"; selected_symbol := None |}.

(** ** Observations of a run *)

(** [preserves f m]: running [m] leaves the observation [f] of the world
    as it was, whether [m] returns or raises. *)
Definition preserves {A X} (f : World -> X) (m : M A) : Prop :=
  forall w, f (snd (m w)) = f w.

Definition shown (w : World) : bool := shows_result (page w).

(** A run up to the results column (lines 41-84): what it returns and
    the world the results column starts from. *)
Definition before_results_column (repr_float : float -> string)
    (backend : Backend) (ev : event) (s : SessionState)
    : result unit * World :=
  bind (fetch_exchanges backend)
    (fun _ => exchange_and_symbol repr_float backend ev)
    {| session := apply_event ev s; page := []; sent := [] |}.

Definition posts (w : World) : list request := filter is_post (sent w).

Definition symbol_state (w : World) : option (list string) * option string :=
  (symbols (session w), selected_symbol (session w)).

(** The symbols a 200 answer carries: the member, or the empty list when
    the member is absent. *)
Definition returned_symbols (body : SymbolsBody) : list string :=
  get (symbols_member body) [].

Definition symbol_boxes (page : list element) : list (list string) :=
  flat_map
    (fun e =>
       match e with
       | st_selectbox label options _ =>
           if String.eqb label "Select Symbol" then [options] else []
       | _ => []
       end)
    page.

Definition two_exchanges (exchange : string) : reply SymbolsBody :=
  if String.eqb exchange "kraken" then symbols_answer ["XBT/USD"; "ETH/USD"]
  else symbols_answer ["BTC/USDT"; "ETH/USDT"; "SOL/USDT"].

Definition two_exchange_backend : Backend :=
  {| exchanges_endpoint :=
       answer 200 "" (Some {| exchanges_member := Some ["binance"; "kraken"] |});
     symbols_endpoint := two_exchanges;
     trade_endpoint := fun _ => rejected |}.

Definition session_with_symbols : SessionState :=
  {| exchanges := Some ["binance"; "kraken"];
     symbols := Some ["BTC/USDT"; "ETH/USDT"];
     selected_exchange := Some "binance";
     selected_symbol := Some "ETH/USDT" |}.

(** The columns of [trade_df] after lines 193-195. *)
Definition trade_columns (trades : list dict) : list string :=
  fold_left DataFrame.add_label optional_columns (DataFrame.labels_of trades).

Definition trade_without_exit_time : dict :=
  [("symbol", CStr "BTC/USDT"); ("trade_type", CStr "long");
   ("entry_time", CStr "2025-01-05 10:00"); ("entry_price", CNum (decimal 100 1));
   ("exit_price", CNum (decimal 1025 10)); ("profit_pct", CNum (decimal 25 10))].

Definition download_names (page : list element) : list string :=
  flat_map
    (fun e =>
       match e with
       | st_download_button _ _ name _ => [name]
       | _ => []
       end)
    page.


Definition downloads (w : World) : list string := download_names (page w).

(** [invariant P m]: [P], once true of the world, is true after [m]. *)
Definition invariant {A} (P : World -> Prop) (m : M A) : Prop :=
  forall w, P w -> P (snd (m w)).

(** Every download offered is named [name]. *)
Definition named (name : string) (w : World) : Prop :=
  Forall (fun n => n = name) (downloads w).

Definition successful_backend : Backend :=
  sample_backend (symbols_answer []) (answer 200 "" (Some sample_result)).

(** The trade is written without a carriage return outside quotes: its
    keys, its strings and the texts of its numbers. *)
Definition exportable (repr_float : float -> string) (d : dict) : bool :=
  forallb
    (fun kv =>
       Csv.safe (fst kv) &&
       match snd kv with
       | CStr t => Csv.safe t
       | CNum x => Float.is_nan x || Csv.safe (repr_float x)
       end)
    d.



(** The exchanges the session holds. *)
Definition stored_exchanges (w : World) : option (list string) :=
  exchanges (session w).

(** [grows m]: [m] only adds to the page. *)
Definition grows {A} (m : M A) : Prop :=
  forall w, exists more, page (snd (m w)) = (page w ++ more)%list.

(** The two addresses of the GET requests. *)
Definition exchanges_url : string := "http://127.0.0.1:8080/exchanges".

Definition symbols_url (exchange : option string) : string :=
  "http://127.0.0.1:8080/symbols?exchange="
    ++ match exchange with Some e => e | None => "None" end.

Definition trade_url : string := "http://127.0.0.1:8080/trade".

(** The requests a run sends once the exchanges are loaded, by what the
    user did; [before] and [after] are the session before and after the
    run. *)
Definition requests_of (inputs : Sidebar) (ev : event)
    (before after : SessionState) (exs : list string) : list request :=
  match ev with
  | ClickFetchSymbols =>
      [GET (symbols_url (selectbox exs (selected_exchange before)))]
  | ClickRunBacktest => [POST trade_url (payload inputs after)]
  | _ => []
  end.

Definition is_get_exchanges (rq : request) : bool :=
  match rq with
  | GET url => String.eqb url exchanges_url
  | POST _ _ => false
  end.

(** The connection error and its hint, lines 222-223. *)
Definition connection_error (e : exn) : list element :=
  [st_error ("Connection error: " ++ str_exn e);
   st_info "Ensure the backend server is running on http://127.0.0.1:8080"].

Definition has_char (c : ascii) (s : string) : bool :=
  existsb (Ascii.eqb c) (list_ascii_of_string s).

(** The world with [more] drawn below the page, and with the POST of
    payload [p] sent. *)
Definition draw (more : list element) (w : World) : World :=
  {| session := session w; page := (page w ++ more)%list; sent := sent w |}.

Definition posted (p : payload_dict) (w : World) : World :=
  {| session := session w; page := page w;
     sent := (sent w ++ [POST trade_url p])%list |}.

(** Every required column is in some trade, and no trade gives
    [profit_pct] as a string. *)
Definition columns_present (trades : list dict) : bool :=
  forallb (fun l => negb (lacks l trades)) required_columns.

Definition no_text_profit (trades : list dict) : bool :=
  forallb
    (fun d => match lookup "profit_pct" d with
              | Some (CStr _) => false
              | _ => true
              end)
    trades.

(** The row of the displayed table for trade [d]. *)
Definition display_row (trades : list dict) (d : dict) : list cell :=
  [ cell_of d "symbol"; cell_of d "trade_type"; cell_of d "entry_time";
    cell_of d "entry_price";
    if lacks "entry_rsi" trades then CStr "" else cell_of d "entry_rsi";
    cell_of d "exit_time"; cell_of d "exit_price";
    if lacks "exit_rsi" trades then CStr "" else cell_of d "exit_rsi";
    match cell_of d "profit_pct" with
    | CNum x => CStr (Float.format_2f x ++ "%")
    | CStr t => CStr t
    end ].

(** Two trades of which only the first has an entry RSI and only the
    second a profit. *)
Definition trade_with_rsi : dict :=
  [("symbol", CStr "BTC/USDT"); ("trade_type", CStr "long");
   ("entry_time", CStr "10:00"); ("entry_price", CNum (decimal 100 1));
   ("entry_rsi", CNum (decimal 25 1));
   ("exit_time", CStr "11:00"); ("exit_price", CNum (decimal 1025 10))].

Definition trade_without_rsi : dict :=
  [("symbol", CStr "BTC/USDT"); ("trade_type", CStr "long");
   ("entry_time", CStr "12:00"); ("entry_price", CNum (decimal 100 1));
   ("exit_time", CStr "13:00"); ("exit_price", CNum (decimal 1025 10));
   ("profit_pct", CNum (decimal 25 10))].

Definition trade_with_text_profit : dict :=
  [("symbol", CStr "BTC/USDT"); ("trade_type", CStr "long");
   ("entry_time", CStr "12:00"); ("entry_price", CNum (decimal 100 1));
   ("exit_time", CStr "13:00"); ("exit_price", CNum (decimal 1025 10));
   ("profit_pct", CStr "2.5")].

Definition unreachable_backend : Backend :=
  {| exchanges_endpoint := Failed (RequestException "Connection refused");
     symbols_endpoint := fun _ => Failed (RequestException "Connection refused");
     trade_endpoint := fun _ => Failed (RequestException "Connection refused") |}.

Definition failing_backend : Backend :=
  {| exchanges_endpoint := answer 500 "internal error" None;
     symbols_endpoint := fun _ => answer 500 "internal error" None;
     trade_endpoint := fun _ => rejected |}.

(** The required columns that no trade has, in the order of the
    display. *)
Definition missing_columns (trades : list dict) : list string :=
  filter (fun l => lacks l trades) required_columns.

Definition session_without_exchanges : SessionState :=
  {| exchanges := Some []; symbols := None;
     selected_exchange := None; selected_symbol := None |}.

(* ================================================================== *)
(** * Properties                                                       *)
(* ================================================================== *)

(** ** Running the monad *)

Lemma bind_inv {A B} (m : M A) (k : A -> M B) w r w' :
  bind m k w = (r, w') ->
  (exists a w1, m w = (Ok a, w1) /\ k a w1 = (r, w')) \/
  (exists e, m w = (Raise e, w') /\ r = Raise e).
Proof.
  unfold bind. destruct (m w) as [[a | e] w1]; intros H.
  - left. now exists a, w1.
  - right. exists e. now inversion H.
Qed.

Lemma bind_ok {A B} (m : M A) (k : A -> M B) w a w1 :
  m w = (Ok a, w1) -> bind m k w = k a w1.
Proof. unfold bind. now intros ->. Qed.

Lemma bind_raise {A B} (m : M A) (k : A -> M B) w e w1 :
  m w = (Raise e, w1) -> bind m k w = (Raise e, w1).
Proof. unfold bind. now intros ->. Qed.

Section Preserves.

Context {X : Type} (f : World -> X).

Lemma preserves_ret {A} (a : A) : preserves f (ret a).
Proof. now intros w. Qed.

Lemma preserves_lift {A} (r : result A) : preserves f (lift r).
Proof. now intros w. Qed.

Lemma preserves_read_session : preserves f read_session.
Proof. now intros w. Qed.

Lemma preserves_bind {A B} (m : M A) (k : A -> M B) :
  preserves f m -> (forall a, preserves f (k a)) -> preserves f (bind m k).
Proof.
  intros Hm Hk w. unfold bind. specialize (Hm w).
  destruct (m w) as [[a | e] w1]; simpl in Hm.
  - now rewrite Hk.
  - exact Hm.
Qed.

Lemma preserves_try_except {A} (body : M A) (handler : exn -> M A) :
  preserves f body -> (forall e, preserves f (handler e)) ->
  preserves f (try_except body handler).
Proof.
  intros Hm Hk w. unfold try_except. specialize (Hm w).
  destruct (body w) as [[a | e] w1]; simpl in Hm.
  - exact Hm.
  - now rewrite Hk.
Qed.

End Preserves.

Lemma emit_session e : preserves session (emit e).
Proof. now intros w. Qed.

Lemma emit_sent e : preserves sent (emit e).
Proof. now intros w. Qed.

Lemma emit_shown e : is_result_element e = false -> preserves shown (emit e).
Proof.
  intros He w. unfold shown, shows_result, emit. simpl.
  rewrite existsb_app. simpl. rewrite He. now rewrite !orb_false_r.
Qed.

Lemma update_session_sent g : preserves sent (update_session g).
Proof. now intros w. Qed.

Lemma update_session_shown g : preserves shown (update_session g).
Proof. now intros w. Qed.

Lemma http_session {A} rq (r : reply A) : preserves session (http rq r).
Proof. intros w. unfold http. now destruct r. Qed.

Lemma http_shown {A} rq (r : reply A) : preserves shown (http rq r).
Proof. intros w. unfold http. now destruct r. Qed.

Create HintDb pres discriminated.
#[local] Hint Resolve preserves_ret preserves_lift preserves_read_session
  emit_session emit_sent update_session_sent update_session_shown
  http_session http_shown : pres.
#[local] Hint Extern 1 (preserves shown (emit _)) =>
  apply emit_shown; reflexivity : pres.
#[local] Hint Extern 2 (preserves _ (bind _ _)) =>
  apply preserves_bind; [ | intros ] : pres.
#[local] Hint Extern 2 (preserves _ (try_except _ _)) =>
  apply preserves_try_except; [ | intros ] : pres.
#[local] Hint Extern 3 (preserves _ (match ?x with _ => _ end)) =>
  destruct x : pres.

Lemma summary_metrics_session smry : preserves session (summary_metrics smry).
Proof. unfold summary_metrics. auto 20 with pres. Qed.

Lemma summary_metrics_sent smry : preserves sent (summary_metrics smry).
Proof. unfold summary_metrics. auto 20 with pres. Qed.

Lemma trade_details_session repr now p trades :
  preserves session (trade_details repr now p trades).
Proof. unfold trade_details. auto 20 with pres. Qed.

Lemma trade_details_sent repr now p trades :
  preserves sent (trade_details repr now p trades).
Proof. unfold trade_details. auto 20 with pres. Qed.

#[local] Hint Resolve summary_metrics_session summary_metrics_sent
  trade_details_session trade_details_sent : pres.

Lemma render_results_session repr now p result :
  preserves session (render_results repr now p result).
Proof. unfold render_results. auto 20 with pres. Qed.

Lemma render_results_sent repr now p result :
  preserves sent (render_results repr now p result).
Proof. unfold render_results. auto 20 with pres. Qed.

#[local] Hint Resolve render_results_session render_results_sent : pres.

(** A submission never writes to the session. *)
Lemma submit_session repr backend now p :
  preserves session (submit repr backend now p).
Proof. unfold submit. auto 20 with pres. Qed.

Lemma results_column_session repr backend now inputs ev :
  preserves session (results_column repr backend now inputs ev).
Proof.
  unfold results_column. pose proof submit_session. auto 20 with pres.
Qed.

(** Neither the start-up fetch nor the sidebar draws a result. *)
Lemma fetch_exchanges_shown backend : preserves shown (fetch_exchanges backend).
Proof. unfold fetch_exchanges. auto 20 with pres. Qed.

Lemma exchange_and_symbol_shown repr backend ev :
  preserves shown (exchange_and_symbol repr backend ev).
Proof. unfold exchange_and_symbol. auto 30 with pres. Qed.

(** ** The win rate (lines 175-177) *)

Lemma win_rate_percent_nonzero winning total :
  total <> 0 ->
  win_rate_percent winning total =
  Float.to_int
    (Float.mul (Float.div (Float.of_int winning) (Float.of_int total))
       (Float.of_int 100)).
Proof.
  intros H. unfold win_rate_percent, truediv.
  destruct (Z.eqb_spec total 0); [contradiction | reflexivity].
Qed.

(** With the key absent the default 1 is the divisor and nothing is
    raised by the division. *)
Lemma win_rate_default_total winning tp ap :
  let smry := {| total_trades := None; winning_trades := winning;
                 total_profit_pct := tp; avg_profit_per_trade := ap |} in
  truediv (get (winning_trades smry) 0) (get (total_trades smry) 1)
  = Ok (Float.div (Float.of_int (get winning 0)) (Float.of_int 1)).
Proof. reflexivity. Qed.

(** The percent is the truncation of a float product: 29 wins of 100
    show as 28. *)
Example win_rate_29_of_100 : win_rate_percent 29 100 = Ok 28.
Proof. reflexivity. Qed.

Example win_rate_1_of_3 : win_rate_percent 1 3 = Ok 33.
Proof. reflexivity. Qed.

(** C1 (the code departs from the claim).  A summary whose
    [total_trades] is 0 makes line 177 divide by zero: the metrics stop
    after "Total Trades", and in the spec's scenario of a run without
    trades the page shows "Connection error: division by zero" where the
    claim wants a win rate of 0% and "No trades executed". *)
Theorem C1_zero_total_trades_divides_by_zero :
  (forall winning, win_rate_percent winning 0 = Raise ZeroDivisionError) /\
  (forall winning tp ap w,
     summary_metrics
       {| total_trades := Some 0; winning_trades := winning;
          total_profit_pct := tp; avg_profit_per_trade := ap |} w
     = (Raise ZeroDivisionError,
        {| session := session w;
           page := (page w ++ [st_metric "Total Trades" "0"])%list;
           sent := sent w |})) /\
  page (snd (rerun sample_repr
               (sample_backend (symbols_answer [])
                  (answer 200 "" (Some no_trades_result)))
               sample_now sample_inputs ClickRunBacktest ready_session))
  = [ st_selectbox "Select Exchange" ["binance"; "kraken"] (Some "binance");
      st_info "Click 'Fetch Symbols' to load available symbols.";
      st_subheader "Backtest Results for BTC/USDT on binance";
      st_metric "Total Trades" "0";
      st_error "Connection error: division by zero";
      st_info "Ensure the backend server is running on http://127.0.0.1:8080" ].
Proof.
  split; [ | split ].
  - reflexivity.
  - reflexivity.
  - vm_compute. reflexivity.
Qed.

(** ** Submission (lines 146-225) *)

Lemma try_http_sent {A B} rq (r : reply A) (k : Response A -> M B)
    (handler : exn -> M B) w :
  (forall resp, preserves sent (k resp)) ->
  (forall e, preserves sent (handler e)) ->
  sent (snd (try_except (bind (http rq r) k) handler w)) =
  (sent w ++ [rq])%list.
Proof.
  intros Hk Hh. unfold try_except, bind, http.
  destruct r as [resp | e]; simpl.
  - specialize (Hk resp
      {| session := session w; page := page w; sent := (sent w ++ [rq])%list |}).
    destruct (k resp _) as [[b | e] w2]; simpl in *.
    + exact Hk.
    + now rewrite Hh.
  - now rewrite Hh.
Qed.

Lemma submit_sent repr backend now p w :
  sent (snd (submit repr backend now p w)) =
  (sent w ++ [POST "http://127.0.0.1:8080/trade" p])%list.
Proof.
  unfold submit. apply try_http_sent.
  - intros resp. auto 20 with pres.
  - intros e. auto with pres.
Qed.

(** What a failed call leaves: the error, one POST, the session as it
    was. *)
Lemma submit_failed repr backend now p w :
  failed (trade_endpoint backend p) = true ->
  submit repr backend now p w =
  (Ok tt,
   {| session := session w;
      page :=
        (page w ++
         match trade_endpoint backend p with
         | Answered resp => [st_error ("Error: " ++ text resp)]
         | Failed e =>
             [st_error ("Connection error: " ++ str_exn e);
              st_info
                "Ensure the backend server is running on http://127.0.0.1:8080"]
         end)%list;
      sent := (sent w ++ [POST "http://127.0.0.1:8080/trade" p])%list |}).
Proof.
  intros H. unfold submit, try_except, bind, http.
  destruct (trade_endpoint backend p) as [resp | e]; simpl in *.
  - apply negb_true_iff in H. rewrite H. reflexivity.
  - unfold emit. simpl. now rewrite <- app_assoc.
Qed.

(** C5.  A [/trade] call that does not answer 200 is shown to the user:
    with a status other than 200 the message carries the response body
    as it is, with a transport failure it is the connection error and its
    hint; either way the submission returns, one POST was sent and no
    other request, and the session is untouched. *)
Theorem C5_trade_failure_is_shown_once repr backend now p w :
  failed (trade_endpoint backend p) = true ->
  submit repr backend now p w =
  (Ok tt,
   {| session := session w;
      page :=
        (page w ++
         match trade_endpoint backend p with
         | Answered resp => [st_error ("Error: " ++ text resp)]
         | Failed e =>
             [st_error ("Connection error: " ++ str_exn e);
              st_info
                "Ensure the backend server is running on http://127.0.0.1:8080"]
         end)%list;
      sent := (sent w ++ [POST "http://127.0.0.1:8080/trade" p])%list |}) /\
  List.length (filter is_post (sent (snd (submit repr backend now p w)))) =
  S (List.length (filter is_post (sent w))).
Proof.
  intros H. split.
  - now apply submit_failed.
  - rewrite submit_sent, filter_app, List.length_app. simpl. lia.
Qed.

Lemma C5_witness :
  failed (trade_endpoint (sample_backend (symbols_answer []) rejected) []) = true /\
  submit sample_repr (sample_backend (symbols_answer []) rejected) sample_now []
    {| session := ready_session; page := []; sent := [] |}
  = (Ok tt,
     {| session := ready_session;
        page := [st_error "Error: strategy error: invalid period"];
        sent := [POST "http://127.0.0.1:8080/trade" []] |}).
Proof.
  split.
  - reflexivity.
  - apply (C5_trade_failure_is_shown_once sample_repr
             (sample_backend (symbols_answer []) rejected) sample_now []
             {| session := ready_session; page := []; sent := [] |}).
    reflexivity.
Defined.

(** The transport failing: the connection error, not the body. *)
Example submit_unreachable :
  page (snd (submit sample_repr
               (sample_backend (symbols_answer [])
                  (Failed (RequestException "Connection refused")))
               sample_now []
               {| session := ready_session; page := []; sent := [] |}))
  = [st_error "Connection error: Connection refused";
     st_info "Ensure the backend server is running on http://127.0.0.1:8080"].
Proof. reflexivity. Qed.

(** ** What a failed submission leaves on the page *)

Lemma sidebar_same_without_fetch repr backend :
  exchange_and_symbol repr backend ClickRunBacktest =
  exchange_and_symbol repr backend Rerun.
Proof. reflexivity. Qed.

Lemma script_session_before_results repr backend now inputs ev w :
  session (snd (script repr backend now inputs ev w)) =
  session (snd (bind (fetch_exchanges backend)
                  (fun _ => exchange_and_symbol repr backend ev) w)).
Proof.
  unfold script, bind.
  destruct (fetch_exchanges backend w) as [[[] | e] w1]; [ | reflexivity ].
  destruct (exchange_and_symbol repr backend ev w1) as [[[] | e] w2];
    [ | reflexivity ].
  apply results_column_session.
Qed.

Lemma rerun_after_sidebar repr backend now inputs ev s :
  rerun repr backend now inputs ev s =
  match before_results_column repr backend ev s with
  | (Ok _, w) => results_column repr backend now inputs ev w
  | (Raise e, w) => (Raise e, w)
  end.
Proof.
  unfold rerun, script, before_results_column, bind.
  destruct (fetch_exchanges backend _) as [[[] | e] w1]; [ | reflexivity ].
  destruct (exchange_and_symbol repr backend ev w1) as [[[] | e] w2];
    reflexivity.
Qed.

(** Nothing above the results column shows a result. *)
Lemma before_results_column_shown repr backend ev s :
  shows_result (page (snd (before_results_column repr backend ev s))) = false.
Proof.
  unfold before_results_column.
  assert (H : preserves shown
                (bind (fetch_exchanges backend)
                   (fun _ => exchange_and_symbol repr backend ev))).
  { apply preserves_bind; [ apply fetch_exchanges_shown | intros _ ].
    apply exchange_and_symbol_shown. }
  exact (H {| session := apply_event ev s; page := []; sent := [] |}).
Qed.

Lemma not_failed {A} (r : reply A) :
  failed r = false -> exists resp, r = Answered resp /\ status_code resp = 200.
Proof.
  destruct r as [resp | e]; simpl; [ | discriminate ].
  intros H. exists resp. split; [ reflexivity | ].
  apply negb_false_iff in H. now apply Z.eqb_eq.
Qed.

(** A run shows a result only when it is a submission that was answered
    with status 200. *)
Lemma result_shown_only_on_success repr backend now inputs ev s :
  shows_result (page (snd (rerun repr backend now inputs ev s))) = true ->
  ev = ClickRunBacktest /\
  exists resp,
    trade_endpoint backend
      (payload inputs (session (snd (rerun repr backend now inputs ev s)))) =
    Answered resp /\
    status_code resp = 200.
Proof.
  rewrite rerun_after_sidebar.
  pose proof (before_results_column_shown repr backend ev s) as Hside.
  destruct (before_results_column repr backend ev s) as [[[] | e] w];
    simpl in Hside; [ | simpl; congruence ].
  rewrite results_column_session.
  unfold shows_result in Hside.
  destruct ev;
    try (unfold results_column, bind, emit, shows_result; simpl;
         rewrite !existsb_app, Hside; simpl; discriminate).
  intros Hshow. split; [ reflexivity | ].
  destruct (failed (trade_endpoint backend (payload inputs (session w))))
    eqn:Hf; [ | now apply not_failed ].
  exfalso. revert Hshow.
  change (results_column repr backend now inputs ClickRunBacktest w)
    with (submit repr backend now (payload inputs (session w)) w).
  rewrite (submit_failed _ _ _ _ _ Hf). simpl.
  unfold shows_result. rewrite existsb_app, Hside.
  destruct (trade_endpoint backend (payload inputs (session w))); simpl;
    discriminate.
Qed.

(** C2 (as the code has it).  No backtest result is kept in the session:
    a submission, failed or not, leaves the session as a run without a
    click leaves it.  A run shows a result (a metric, chart, table or
    download) only when it is a submission whose own [/trade] call was
    answered with status 200, whatever an earlier run showed.  In the run
    of a submission that fails, the results column holds the error and
    nothing else: the page is what was drawn above the results column,
    which shows no result, followed by the message of the failure. *)
Theorem C2_failed_submission_shows_no_result repr backend now inputs s :
  session (snd (rerun repr backend now inputs ClickRunBacktest s)) =
  session (snd (rerun repr backend now inputs Rerun s)) /\
  (forall ev,
     shows_result (page (snd (rerun repr backend now inputs ev s))) = true ->
     ev = ClickRunBacktest /\
     exists resp,
       trade_endpoint backend
         (payload inputs
            (session (snd (rerun repr backend now inputs ev s)))) =
       Answered resp /\
       status_code resp = 200) /\
  (forall w,
     before_results_column repr backend ClickRunBacktest s = (Ok tt, w) ->
     failed (trade_endpoint backend (payload inputs (session w))) = true ->
     shows_result (page w) = false /\
     rerun repr backend now inputs ClickRunBacktest s =
     (Ok tt,
      {| session := session w;
         page :=
           (page w ++
            match trade_endpoint backend (payload inputs (session w)) with
            | Answered resp => [st_error ("Error: " ++ text resp)]
            | Failed e =>
                [st_error ("Connection error: " ++ str_exn e);
                 st_info
                   "Ensure the backend server is running on http://127.0.0.1:8080"]
            end)%list;
         sent :=
           (sent w ++
            [POST "http://127.0.0.1:8080/trade"
               (payload inputs (session w))])%list |})).
Proof.
  split; [ | split ].
  - unfold rerun. rewrite !script_session_before_results.
    now rewrite sidebar_same_without_fetch.
  - intros ev. apply result_shown_only_on_success.
  - intros w Hside Hfail. split.
    + pose proof (before_results_column_shown repr backend ClickRunBacktest s)
        as H.
      now rewrite Hside in H.
    + rewrite rerun_after_sidebar, Hside.
      change (results_column repr backend now inputs ClickRunBacktest w)
        with (submit repr backend now (payload inputs (session w)) w).
      now apply submit_failed.
Qed.

Lemma C2_witness :
  before_results_column sample_repr
    (sample_backend (symbols_answer []) rejected) ClickRunBacktest
    ready_session =
  (Ok tt,
   {| session := ready_session;
      page :=
        [ st_selectbox "Select Exchange" ["binance"; "kraken"] (Some "binance");
          st_info "Click 'Fetch Symbols' to load available symbols." ];
      sent := [] |}) /\
  failed
    (trade_endpoint (sample_backend (symbols_answer []) rejected)
       (payload sample_inputs ready_session)) = true /\
  rerun sample_repr (sample_backend (symbols_answer []) rejected)
    sample_now sample_inputs ClickRunBacktest ready_session =
  (Ok tt,
   {| session := ready_session;
      page :=
        [ st_selectbox "Select Exchange" ["binance"; "kraken"] (Some "binance");
          st_info "Click 'Fetch Symbols' to load available symbols.";
          st_error "Error: strategy error: invalid period" ];
      sent :=
        [POST "http://127.0.0.1:8080/trade"
           (payload sample_inputs ready_session)] |}).
Proof.
  split; [ reflexivity | split; [ reflexivity | ] ].
  destruct (C2_failed_submission_shows_no_result sample_repr
              (sample_backend (symbols_answer []) rejected)
              sample_now sample_inputs ready_session) as (_ & _ & H).
  exact (proj2 (H _ eq_refl eq_refl)).
Defined.

(** C2 (the claim as stated fails).  A run that succeeds shows its
    result; the next submission is rejected with status 500, and the page
    of that run holds the error and nothing of the result. *)
Lemma C2_result_is_lost_on_a_failed_run :
  let first :=
    rerun sample_repr
      (sample_backend (symbols_answer []) (answer 200 "" (Some sample_result)))
      sample_now sample_inputs ClickRunBacktest ready_session in
  let second :=
    rerun sample_repr (sample_backend (symbols_answer []) rejected)
      sample_now sample_inputs ClickRunBacktest (session (snd first)) in
  shows_result (page (snd first)) = true /\
  shows_result (page (snd second)) = false /\
  page (snd second) =
  [ st_selectbox "Select Exchange" ["binance"; "kraken"] (Some "binance");
    st_info "Click 'Fetch Symbols' to load available symbols.";
    st_error "Error: strategy error: invalid period" ].
Proof. vm_compute. repeat split. Qed.

(** ** The request payload (lines 148-160) *)

Lemma http_get_posts {A} url (r : reply A) : preserves posts (http (GET url) r).
Proof.
  intros w. unfold posts, http.
  destruct r; simpl; rewrite filter_app; simpl; apply app_nil_r.
Qed.

Lemma emit_posts e : preserves posts (emit e).
Proof. now intros w. Qed.

Lemma update_session_posts g : preserves posts (update_session g).
Proof. now intros w. Qed.

#[local] Hint Resolve http_get_posts emit_posts update_session_posts : pres.

Lemma fetch_exchanges_posts backend : preserves posts (fetch_exchanges backend).
Proof. unfold fetch_exchanges. auto 20 with pres. Qed.

Lemma exchange_and_symbol_posts repr backend ev :
  preserves posts (exchange_and_symbol repr backend ev).
Proof. unfold exchange_and_symbol. auto 30 with pres. Qed.

Lemma results_column_posts repr backend now inputs ev w rq :
  In rq (posts (snd (results_column repr backend now inputs ev w))) ->
  In rq (posts w) \/
  rq = POST "http://127.0.0.1:8080/trade"
         (payload inputs
            (session (snd (results_column repr backend now inputs ev w)))).
Proof.
  rewrite results_column_session.
  unfold results_column.
  destruct (is_run_backtest ev).
  - unfold bind at 1. unfold read_session at 1.
    unfold posts. rewrite submit_sent. rewrite filter_app. simpl.
    rewrite in_app_iff. simpl. intuition.
  - assert (H : preserves posts
                  (emit (st_info
                           "👈 Configure your parameters in the sidebar and click 'Run Backtest'");;
                   emit (st_subheader "Strategy Overview")))
      by auto with pres.
    rewrite H. now left.
Qed.

(** Every POST a run sends carries the payload built from the session
    of that run. *)
Lemma rerun_posts repr backend now inputs ev s url body :
  In (POST url body) (sent (snd (rerun repr backend now inputs ev s))) ->
  body = payload inputs (session (snd (rerun repr backend now inputs ev s))).
Proof.
  intros Hin.
  assert (Hp : In (POST url body)
                 (posts (snd (rerun repr backend now inputs ev s))))
    by (unfold posts; apply filter_In; now split).
  clear Hin. revert Hp. unfold rerun, script.
  set (w0 := {| session := apply_event ev s; page := []; sent := [] |}).
  unfold bind.
  pose proof (fetch_exchanges_posts backend w0) as H1.
  destruct (fetch_exchanges backend w0) as [[[] | e] w1]; simpl in H1.
  - pose proof (exchange_and_symbol_posts repr backend ev w1) as H2.
    destruct (exchange_and_symbol repr backend ev w1) as [[[] | e] w2];
      simpl in H2.
    + intros Hp. apply results_column_posts in Hp.
      rewrite H2, H1 in Hp. destruct Hp as [[] | Hp]. now inversion Hp.
    + simpl. rewrite H2, H1. intros [].
  - simpl. rewrite H1. intros [].
Qed.

Lemma rerun_posts_only_on_submit repr backend now inputs ev s :
  is_run_backtest ev = false ->
  posts (snd (rerun repr backend now inputs ev s)) = [].
Proof.
  intros Hev. unfold rerun.
  assert (H : preserves posts (script repr backend now inputs ev)).
  { unfold script, results_column. rewrite Hev.
    pose proof fetch_exchanges_posts. pose proof exchange_and_symbol_posts.
    auto 20 with pres. }
  now rewrite H.
Qed.

Lemma fetch_exchanges_symbol_state backend :
  preserves symbol_state (fetch_exchanges backend).
Proof.
  assert (Hu : forall l, preserves symbol_state (update_session (set_exchanges l)))
    by (intros l w; reflexivity).
  assert (He : forall e, preserves symbol_state (emit e))
    by (intros e w; reflexivity).
  assert (Hh : forall A rq (r : reply A), preserves symbol_state (http rq r))
    by (intros A rq r w; unfold http; now destruct r).
  unfold fetch_exchanges. auto 20 with pres.
Qed.

Lemma exchange_and_symbol_no_symbols repr backend w :
  symbols (session w) = None ->
  symbol_state (snd (exchange_and_symbol repr backend ClickRunBacktest w)) =
  symbol_state w.
Proof.
  intros H. unfold exchange_and_symbol, bind, read_session, lift, attribute.
  destruct (exchanges (session w)); simpl; [ | reflexivity ].
  rewrite H. reflexivity.
Qed.

(** Until symbols have been fetched nothing is selected, and the run of
    a submission leaves it so. *)
Lemma rerun_submit_no_symbols repr backend now inputs s :
  symbols s = None -> selected_symbol s = None ->
  selected_symbol
    (session (snd (rerun repr backend now inputs ClickRunBacktest s))) = None.
Proof.
  intros Hs Hsel. unfold rerun. rewrite script_session_before_results.
  simpl apply_event.
  set (w0 := {| session := s; page := []; sent := [] |}).
  unfold bind.
  pose proof (fetch_exchanges_symbol_state backend w0) as H1.
  destruct (fetch_exchanges backend w0) as [[[] | e] w1]; simpl in H1.
  - assert (H2 : symbols (session w1) = None)
      by (unfold symbol_state in H1; simpl in H1; congruence).
    pose proof (exchange_and_symbol_no_symbols repr backend w1 H2) as H3.
    unfold symbol_state in *. simpl in *. congruence.
  - unfold symbol_state in H1. simpl in *. congruence.
Qed.

(** C6.  Whatever the strategy and the toggles, the body of the POST a
    submission sends is the payload of lines 148-160: its keys are the
    eleven fields, in this order; the RSI period and the two thresholds
    are the sidebar's values; the symbol is the selected one, and
    "BTC/USDT" in a session where no symbols have been fetched and none is
    selected. *)
Theorem C6_payload_has_all_eleven_fields repr backend now inputs ev s url body :
  In (POST url body) (sent (snd (rerun repr backend now inputs ev s))) ->
  map fst body =
  ["exchange"; "symbol"; "username"; "rsi_period"; "buy_threshold";
   "sell_threshold"; "trade_type"; "strategy"; "ma_period";
   "use_scratch_rsi"; "use_csv"] /\
  subscript body "rsi_period" = Ok (PInt (rsi_period inputs)) /\
  subscript body "buy_threshold" = Ok (PFloat (buy_threshold inputs)) /\
  subscript body "sell_threshold" = Ok (PFloat (sell_threshold inputs)) /\
  subscript body "strategy" = Ok (PStr (str_strategy (strategy inputs))) /\
  subscript body "use_scratch_rsi" = Ok (PBool (use_scratch_rsi inputs)) /\
  subscript body "symbol" =
  Ok (PStr (get (selected_symbol
                   (session (snd (rerun repr backend now inputs ev s))))
              "BTC/USDT")) /\
  (symbols s = None -> selected_symbol s = None ->
   subscript body "symbol" = Ok (PStr "BTC/USDT")).
Proof.
  intros Hin. pose proof (rerun_posts _ _ _ _ _ _ _ _ Hin) as ->.
  repeat (split; [ reflexivity | ]).
  intros Hs Hsel.
  assert (Hev : ev = ClickRunBacktest).
  { destruct ev; try reflexivity;
      (assert (Hp : In (POST url
                          (payload inputs
                             (session (snd (rerun repr backend now inputs _ s)))))
                      (posts (snd (rerun repr backend now inputs _ s))))
         by (unfold posts; apply filter_In; split; [ exact Hin | reflexivity ]);
       rewrite rerun_posts_only_on_submit in Hp by reflexivity;
       destruct Hp). }
  subst ev. simpl.
  now rewrite (rerun_submit_no_symbols repr backend now inputs s Hs Hsel).
Qed.

Lemma C6_witness :
  In (POST "http://127.0.0.1:8080/trade"
        (payload sample_inputs ready_session))
     (sent (snd (rerun sample_repr (sample_backend (symbols_answer []) rejected)
                   sample_now sample_inputs ClickRunBacktest ready_session))) /\
  map fst (payload sample_inputs ready_session) =
  ["exchange"; "symbol"; "username"; "rsi_period"; "buy_threshold";
   "sell_threshold"; "trade_type"; "strategy"; "ma_period";
   "use_scratch_rsi"; "use_csv"] /\
  subscript (payload sample_inputs ready_session) "symbol" =
  Ok (PStr "BTC/USDT").
Proof.
  assert (Hin : In (POST "http://127.0.0.1:8080/trade"
                      (payload sample_inputs ready_session))
                  (sent (snd (rerun sample_repr
                                (sample_backend (symbols_answer []) rejected)
                                sample_now sample_inputs ClickRunBacktest
                                ready_session))))
    by (vm_compute; left; reflexivity).
  split; [ exact Hin | ].
  pose proof (C6_payload_has_all_eleven_fields sample_repr
                (sample_backend (symbols_answer []) rejected)
                sample_now sample_inputs ClickRunBacktest ready_session
                _ _ Hin) as H.
  split; [ apply H | ].
  apply H; reflexivity.
Defined.

(** ** Fetching symbols (lines 67-84) *)

Lemma offered v options :
  In v options -> existsb (String.eqb v) options = true.
Proof.
  intros H. apply existsb_exists. exists v. split; [ exact H | ].
  apply String.eqb_refl.
Qed.

(** With the exchanges loaded, a click on "Fetch Symbols" that is
    answered with 200 stores the returned symbols in place of the stored
    ones, and the symbol box, drawn when there is a symbol to offer, offers
    them. *)
Lemma fetch_symbols_ok repr backend now inputs s exs a r body :
  exchanges s = Some exs ->
  selected_exchange s = Some a ->
  In a exs ->
  symbols_endpoint backend a = Answered r ->
  status_code r = 200 ->
  json r = Some body ->
  let w := snd (rerun repr backend now inputs ClickFetchSymbols s) in
  exchanges (session w) = Some exs /\
  selected_exchange (session w) = Some a /\
  symbols (session w) = Some (returned_symbols body) /\
  symbol_boxes (page w) =
  match returned_symbols body with
  | [] => []
  | l => [l]
  end.
Proof.
  intros Hex Hsel Hin Hr Hst Hj.
  destruct s as [ex sy se ss]. simpl in Hex, Hsel. subst ex se.
  unfold rerun, script, fetch_exchanges, exchange_and_symbol, results_column,
    bind, read_session, lift, attribute, http, response_json, returned_symbols.
  simpl. rewrite (offered _ _ Hin). simpl.
  rewrite Hr. simpl. rewrite Hst. simpl. rewrite Hj. simpl.
  destruct (get (symbols_member body) []); simpl; auto.
Qed.

(** Picking another exchange reruns the script without fetching: the
    stored symbols stay. *)
Lemma pick_exchange_keeps_symbols repr backend now inputs s exs b :
  exchanges s = Some exs ->
  In b exs ->
  let s' := session (snd (rerun repr backend now inputs (PickExchange b) s)) in
  exchanges s' = Some exs /\
  selected_exchange s' = Some b /\
  symbols s' = symbols s.
Proof.
  intros Hex Hin.
  destruct s as [ex sy se ss]. simpl in Hex. subst ex.
  unfold rerun, script, fetch_exchanges, exchange_and_symbol, results_column,
    bind, read_session, lift, attribute.
  simpl. rewrite (offered _ _ Hin).
  destruct sy as [[ | y ys] | ]; simpl; auto.
Qed.

(** C7.  One session, two fetches: symbols are fetched for exchange [a],
    then exchange [b] is picked and its symbols are fetched.  After the
    second fetch the stored symbols are the ones returned for [b], in
    their order, and the symbol box offers those and no others; nothing of
    [a]'s list is kept. *)
Theorem C7_symbols_are_replaced repr backend now inputs s0 exs a b rA rB
    bodyA bodyB :
  exchanges s0 = Some exs ->
  selected_exchange s0 = Some a ->
  In a exs -> In b exs ->
  symbols_endpoint backend a = Answered rA ->
  status_code rA = 200 -> json rA = Some bodyA ->
  symbols_endpoint backend b = Answered rB ->
  status_code rB = 200 -> json rB = Some bodyB ->
  let s1 := session (snd (rerun repr backend now inputs ClickFetchSymbols s0)) in
  let s2 := session (snd (rerun repr backend now inputs (PickExchange b) s1)) in
  let w3 := snd (rerun repr backend now inputs ClickFetchSymbols s2) in
  symbols s1 = Some (returned_symbols bodyA) /\
  symbols (session w3) = Some (returned_symbols bodyB) /\
  symbol_boxes (page w3) =
  match returned_symbols bodyB with
  | [] => []
  | l => [l]
  end.
Proof.
  intros Hex Hsel Ha Hb HrA HstA HjA HrB HstB HjB s1 s2 w3.
  destruct (fetch_symbols_ok repr backend now inputs s0 exs a rA bodyA
              Hex Hsel Ha HrA HstA HjA) as (Hex1 & _ & Hsy1 & _).
  fold s1 in Hex1, Hsy1.
  destruct (pick_exchange_keeps_symbols repr backend now inputs s1 exs b
              Hex1 Hb) as (Hex2 & Hsel2 & _).
  fold s2 in Hex2, Hsel2.
  destruct (fetch_symbols_ok repr backend now inputs s2 exs b rB bodyB
              Hex2 Hsel2 Hb HrB HstB HjB) as (_ & _ & Hsy3 & Hbox3).
  fold w3 in Hsy3, Hbox3.
  auto.
Qed.

Lemma C7_witness :
  let s1 :=
    session (snd (rerun sample_repr two_exchange_backend sample_now
                    sample_inputs ClickFetchSymbols ready_session)) in
  let s2 :=
    session (snd (rerun sample_repr two_exchange_backend sample_now
                    sample_inputs (PickExchange "kraken") s1)) in
  let w3 :=
    snd (rerun sample_repr two_exchange_backend sample_now sample_inputs
           ClickFetchSymbols s2) in
  symbols s1 = Some ["BTC/USDT"; "ETH/USDT"; "SOL/USDT"] /\
  symbols (session w3) = Some ["XBT/USD"; "ETH/USD"] /\
  symbol_boxes (page w3) = [["XBT/USD"; "ETH/USD"]].
Proof.
  apply (C7_symbols_are_replaced sample_repr two_exchange_backend sample_now
           sample_inputs ready_session ["binance"; "kraken"]
           "binance" "kraken"
           {| status_code := 200; text := "";
              json := Some {| symbols_member :=
                                Some ["BTC/USDT"; "ETH/USDT"; "SOL/USDT"] |} |}
           {| status_code := 200; text := "";
              json := Some {| symbols_member := Some ["XBT/USD"; "ETH/USD"] |} |}
           {| symbols_member := Some ["BTC/USDT"; "ETH/USDT"; "SOL/USDT"] |}
           {| symbols_member := Some ["XBT/USD"; "ETH/USD"] |});
    try reflexivity; simpl; auto.
Defined.

(** C9.  A click on "Fetch Symbols" that is answered with a status other
    than 200 stores the empty list, whatever symbols the session held: the
    error is shown and no symbol can be selected. *)
Theorem C9_failed_symbol_fetch_clears_symbols repr backend now inputs s exs r :
  exchanges s = Some exs ->
  (forall x, symbols_endpoint backend x = Answered r) ->
  status_code r <> 200 ->
  let w := snd (rerun repr backend now inputs ClickFetchSymbols s) in
  symbols (session w) = Some [] /\
  In (st_error "Error fetching symbols.") (page w) /\
  symbol_boxes (page w) = [].
Proof.
  intros Hex Hr Hst.
  destruct s as [ex sy se ss]. simpl in Hex. subst ex.
  unfold rerun, script, fetch_exchanges, exchange_and_symbol, results_column,
    bind, read_session, lift, attribute, http.
  simpl. rewrite Hr. simpl.
  destruct (Z.eqb_spec (status_code r) 200) as [E | _]; [ contradiction | ].
  simpl. auto.
Qed.

Lemma C9_witness :
  let w :=
    snd (rerun sample_repr
           (sample_backend (answer 503 "unavailable" None) rejected)
           sample_now sample_inputs ClickFetchSymbols session_with_symbols) in
  symbols (session w) = Some [] /\
  In (st_error "Error fetching symbols.") (page w) /\
  symbol_boxes (page w) = [].
Proof.
  apply (C9_failed_symbol_fetch_clears_symbols sample_repr
           (sample_backend (answer 503 "unavailable" None) rejected)
           sample_now sample_inputs session_with_symbols
           ["binance"; "kraken"]
           {| status_code := 503; text := "unavailable"; json := None |}).
  - reflexivity.
  - intros x. reflexivity.
  - simpl. discriminate.
Defined.

(** ** Frames *)

Lemma contains_In label labels :
  DataFrame.contains label labels = true <-> In label labels.
Proof.
  unfold DataFrame.contains. rewrite existsb_exists. split.
  - intros (x & Hx & E). apply String.eqb_eq in E. now subst.
  - intros H. exists label. split; [ exact H | apply String.eqb_refl ].
Qed.

Lemma contains_false label labels :
  DataFrame.contains label labels = false <-> ~ In label labels.
Proof.
  rewrite <- contains_In. destruct (DataFrame.contains label labels); intuition congruence.
Qed.

Lemma add_label_In labels k l :
  In l (DataFrame.add_label labels k) <-> In l labels \/ l = k.
Proof.
  unfold DataFrame.add_label.
  destruct (DataFrame.contains k labels) eqn:E.
  - apply contains_In in E. intuition congruence.
  - rewrite in_app_iff. simpl. intuition.
Qed.

Lemma add_labels_In keys : forall labels l,
  In l (fold_left DataFrame.add_label keys labels) <-> In l labels \/ In l keys.
Proof.
  induction keys as [ | k keys IH]; intros labels l; simpl.
  - intuition.
  - rewrite IH, add_label_In. intuition.
Qed.

Lemma labels_from_In records : forall labels l,
  In l (fold_left
          (fun labels (d : dict) =>
             fold_left DataFrame.add_label (map fst d) labels)
          records labels) <->
  In l labels \/ exists d, In d records /\ In l (map fst d).
Proof.
  induction records as [ | d records IH]; intros labels l; simpl.
  - split; [ auto | intros [H | (d & [] & _)]; exact H ].
  - rewrite IH, add_labels_In. split.
    + intros [[H | H] | (d' & H1 & H2)]; eauto.
    + intros [H | (d' & [E | H1] & H2)]; subst; eauto.
Qed.

Lemma lookup_In key d : has_key key d = true <-> In key (map fst d).
Proof.
  unfold has_key. induction d as [ | [k v] d IH]; simpl.
  - split; [ discriminate | intros [] ].
  - destruct (String.eqb_spec key k) as [E | N].
    + subst. intuition.
    + rewrite IH. intuition congruence.
Qed.

(** The columns of [pd.DataFrame(records)] are the keys that some record
    has. *)
Lemma labels_of_In records l :
  In l (DataFrame.labels_of records) <->
  exists d, In d records /\ has_key l d = true.
Proof.
  unfold DataFrame.labels_of. rewrite labels_from_In. split.
  - intros [[] | (d & H1 & H2)]. exists d. now rewrite lookup_In.
  - intros (d & H1 & H2). right. exists d. now rewrite <- lookup_In.
Qed.

Lemma lacks_labels l trades :
  lacks l trades = true <-> ~ In l (DataFrame.labels_of trades).
Proof.
  unfold lacks. rewrite forallb_forall, labels_of_In. split.
  - intros H (d & H1 & H2). apply H in H1. rewrite H2 in H1. discriminate.
  - intros H d Hd. destruct (has_key l d) eqn:E; [ | reflexivity ].
    exfalso. apply H. now exists d.
Qed.

Lemma frame_of_ext g g' labels records :
  (forall d l, In d records -> In l labels -> g d l = g' d l) ->
  frame_of g labels records = frame_of g' labels records.
Proof.
  intros H. unfold frame_of. f_equal.
  apply map_ext_in. intros d Hd. apply map_ext_in. intros l Hl. now apply H.
Qed.

Lemma from_records_frame records :
  DataFrame.from_records records =
  frame_of cell_of (DataFrame.labels_of records) records.
Proof. reflexivity. Qed.

Lemma nth_position (f : string -> cell) labels l :
  In l labels ->
  nth (DataFrame.position l labels) (map f labels) DataFrame.NaN = f l.
Proof.
  induction labels as [ | k labels IH]; simpl; [ intros [] | ].
  intros H. destruct (String.eqb_spec l k) as [E | N].
  - now subst.
  - destruct H as [E | H]; [ congruence | now apply IH ].
Qed.

Lemma setitem_new g labels records label v :
  ~ In label labels ->
  DataFrame.setitem (frame_of g labels records) label v =
  frame_of (override g label (fun _ => v)) (labels ++ [label])%list records.
Proof.
  intros H. unfold DataFrame.setitem. simpl.
  apply contains_false in H as E. rewrite E.
  unfold frame_of. simpl. f_equal. rewrite map_map. apply map_ext. intros d.
  rewrite map_app. simpl. unfold override at 2. rewrite String.eqb_refl.
  f_equal. apply map_ext_in. intros l Hl. unfold override.
  destruct (String.eqb_spec l label); [ subst; contradiction | reflexivity ].
Qed.

Lemma getitem_frame g labels records wanted :
  (forall l, In l wanted -> In l labels) ->
  DataFrame.getitem (frame_of g labels records) wanted =
  Ok (frame_of g wanted records).
Proof.
  intros H. unfold DataFrame.getitem. simpl.
  assert (E : filter (fun l => negb (DataFrame.contains l labels)) wanted = []).
  { clear - H. induction wanted as [ | l wanted IH]; simpl; [ reflexivity | ].
    assert (Hl : DataFrame.contains l labels = true)
      by (apply contains_In; apply H; now left).
    rewrite Hl. simpl. apply IH. intros l' Hl'. apply H. now right. }
  rewrite E. unfold frame_of. do 2 f_equal. rewrite map_map.
  apply map_ext. intros d. apply map_ext_in. intros l Hl.
  unfold DataFrame.at_label. simpl. apply nth_position. now apply H.
Qed.

Lemma getitem_missing df wanted l :
  In l wanted -> ~ In l (DataFrame.columns df) ->
  exists missing,
    DataFrame.getitem df wanted = Raise (KeyError missing) /\ In l missing.
Proof.
  intros Hw Hc. unfold DataFrame.getitem.
  assert (Hl : In l (filter (fun l => negb (DataFrame.contains l (DataFrame.columns df)))
                       wanted)).
  { apply filter_In. split; [ exact Hw | ].
    apply contains_false in Hc. now rewrite Hc. }
  destruct (filter _ wanted) as [ | m ms] eqn:E; [ destruct Hl | ].
  exists (m :: ms). now split.
Qed.

Lemma replace_nth_position (f : string -> cell) labels label v :
  NoDup labels ->
  DataFrame.replace_nth (DataFrame.position label labels) v (map f labels) =
  map (fun l => if String.eqb l label then v else f l) labels.
Proof.
  induction labels as [ | k labels IH]; simpl; [ reflexivity | ].
  intros Hnd. inversion Hnd as [ | ? ? Hk Hnd']; subst.
  destruct (String.eqb_spec label k) as [E | N].
  - subst. rewrite String.eqb_refl. simpl. f_equal.
    apply map_ext_in. intros l Hl.
    destruct (String.eqb_spec l k); [ subst; contradiction | reflexivity ].
  - destruct (String.eqb_spec k label); [ congruence | ].
    simpl. f_equal. now apply IH.
Qed.

Lemma result_map_ok {A B} (f : A -> result B) (h : A -> B) l :
  (forall x, In x l -> f x = Ok (h x)) -> result_map f l = Ok (map h l).
Proof.
  induction l as [ | x l IH]; simpl; intros H; [ reflexivity | ].
  rewrite H by now left. simpl. rewrite IH; [ reflexivity | ].
  intros y Hy. apply H. now right.
Qed.

Lemma apply_column_frame g labels records label f h :
  NoDup labels -> In label labels ->
  (forall d, In d records -> f (g d label) = Ok (h d)) ->
  DataFrame.apply_column (frame_of g labels records) label f =
  Ok (frame_of (override g label h) labels records).
Proof.
  intros Hnd Hin Hf. unfold DataFrame.apply_column. simpl.
  apply contains_In in Hin as E. rewrite E.
  rewrite result_map_ok
    with (h := fun r => match f (DataFrame.at_label (frame_of g labels records) r label) with
                        | Ok v => DataFrame.replace_nth (DataFrame.position label labels) v r
                        | Raise _ => r
                        end).
  - simpl. unfold frame_of. do 2 f_equal. rewrite map_map.
    apply map_ext_in. intros d Hd.
    unfold DataFrame.at_label. simpl. rewrite nth_position by exact Hin.
    rewrite Hf by exact Hd. rewrite replace_nth_position by exact Hnd.
    reflexivity.
  - intros r Hr. apply in_map_iff in Hr as (d & <- & Hd).
    unfold DataFrame.at_label. simpl. rewrite nth_position by exact Hin.
    rewrite Hf by exact Hd. reflexivity.
Qed.

(** ** Shaping the trade table (lines 191-199) *)

Lemma lacks_contains l trades :
  lacks l trades = negb (DataFrame.contains l (DataFrame.labels_of trades)).
Proof.
  destruct (DataFrame.contains l (DataFrame.labels_of trades)) eqn:E; simpl.
  - apply contains_In in E.
    destruct (lacks l trades) eqn:F; [ | reflexivity ].
    apply lacks_labels in F. contradiction.
  - apply contains_false in E. now apply lacks_labels.
Qed.

Lemma contains_add_label_other c k labels :
  c <> k ->
  DataFrame.contains c (DataFrame.add_label labels k) =
  DataFrame.contains c labels.
Proof.
  intros N.
  destruct (DataFrame.contains c labels) eqn:E.
  - apply contains_In. apply add_label_In. left. now apply contains_In.
  - apply contains_false. rewrite add_label_In.
    apply contains_false in E. intuition.
Qed.

Lemma ensure_step g labels records c :
  ensure_column (frame_of g labels records) c =
  frame_of
    (fun d l =>
       if String.eqb l c && negb (DataFrame.contains c labels)
       then CStr "" else g d l)
    (DataFrame.add_label labels c) records.
Proof.
  unfold ensure_column. simpl DataFrame.columns. unfold DataFrame.add_label.
  destruct (DataFrame.contains c labels) eqn:E; simpl negb; cbv iota.
  - apply frame_of_ext. intros d l _ _. now rewrite andb_false_r.
  - rewrite setitem_new by now apply contains_false.
    apply frame_of_ext. intros d l _ _. unfold override.
    now rewrite andb_true_r.
Qed.

(** [trade_df] is the frame of the trades with the placeholder columns:
    the loop of lines 193-195 changes [trade_df] itself. *)
Lemma ensure_frame trades :
  ensure_optional_columns (DataFrame.from_records trades) =
  frame_of (trade_cell trades) (trade_columns trades) trades.
Proof.
  unfold ensure_optional_columns. cbn [fold_left].
  rewrite from_records_frame, ensure_step, ensure_step.
  unfold trade_columns. simpl fold_left.
  apply frame_of_ext. intros d l _ _.
  unfold trade_cell. rewrite lacks_contains. simpl existsb.
  rewrite contains_add_label_other by discriminate.
  destruct (String.eqb_spec l "exit_rsi") as [E | N].
  - subst l. simpl.
    destruct (DataFrame.contains "exit_rsi" (DataFrame.labels_of trades));
      reflexivity.
  - simpl. rewrite orb_false_r.
    destruct (String.eqb_spec l "entry_rsi") as [-> | N']; reflexivity.
Qed.

Lemma display_columns_NoDup : NoDup display_columns.
Proof.
  unfold display_columns.
  repeat (constructor; [ simpl; intuition discriminate | ]). constructor.
Qed.

Lemma display_columns_available trades :
  (forall l, In l required_columns -> In l (DataFrame.labels_of trades)) ->
  forall l, In l display_columns -> In l (trade_columns trades).
Proof.
  intros H l Hl. unfold trade_columns. apply add_labels_In.
  unfold display_columns, required_columns, optional_columns in *.
  simpl in Hl. simpl.
  repeat (destruct Hl as [<- | Hl]; [ (left; apply H; simpl; tauto) || tauto | ]).
  destruct Hl.
Qed.

(** The two frames lines 191-199 build, in closed form, when every
    required column is there and [profit_pct] holds numbers. *)
Lemma shape_trades_ok trades :
  (forall l, In l required_columns -> In l (DataFrame.labels_of trades)) ->
  (forall d, In d trades -> exists x, cell_of d "profit_pct" = CNum x) ->
  shape_trades trades =
  Ok (frame_of (trade_cell trades) (trade_columns trades) trades,
      frame_of (display_cell trades) display_columns trades).
Proof.
  intros Hreq Hnum. unfold shape_trades.
  rewrite ensure_frame.
  rewrite getitem_frame by now apply display_columns_available.
  simpl result_bind.
  rewrite apply_column_frame
    with (h := fun d => display_cell trades d "profit_pct").
  - unfold result_bind.
    rewrite (frame_of_ext
               (override (trade_cell trades) "profit_pct"
                  (fun d => display_cell trades d "profit_pct"))
               (display_cell trades)); [ reflexivity | ].
    intros d l _ _. unfold override, display_cell.
    destruct (String.eqb_spec l "profit_pct") as [-> | N]; reflexivity.
  - exact display_columns_NoDup.
  - unfold display_columns. simpl. tauto.
  - intros d Hd. destruct (Hnum d Hd) as [x Hx].
    unfold display_cell, trade_cell. simpl. rewrite Hx. reflexivity.
Qed.

Lemma is_trade_has d l :
  is_trade d = true -> In l required_columns -> has_key l d = true.
Proof.
  unfold is_trade. rewrite andb_true_iff, forallb_forall.
  intros [H _] Hl. now apply H.
Qed.

Lemma is_trade_profit d :
  is_trade d = true -> exists x, lookup "profit_pct" d = Some (CNum x).
Proof.
  unfold is_trade. rewrite andb_true_iff. intros [_ H].
  destruct (lookup "profit_pct" d) as [[x | s] | ]; try discriminate.
  now exists x.
Qed.

Lemma trades_have_required trades :
  trades <> [] -> forallb is_trade trades = true ->
  forall l, In l required_columns -> In l (DataFrame.labels_of trades).
Proof.
  intros Hne Hall l Hl. destruct trades as [ | d trades]; [ congruence | ].
  apply labels_of_In. exists d. split; [ now left | ].
  apply is_trade_has; [ | exact Hl ].
  simpl in Hall. now apply andb_true_iff in Hall.
Qed.

Lemma trades_profit_numbers trades :
  forallb is_trade trades = true ->
  forall d, In d trades -> exists x, cell_of d "profit_pct" = CNum x.
Proof.
  intros Hall d Hd. rewrite forallb_forall in Hall.
  destruct (is_trade_profit d (Hall d Hd)) as [x Hx].
  exists x. unfold cell_of. now rewrite Hx.
Qed.

(** ** The two-decimal text of a float *)

Lemma round_half_even_nearest num den :
  0 <= num -> 0 < den ->
  0 <= Float.round_half_even num den /\
  2 * Z.abs (Float.round_half_even num den * den - num) <= den.
Proof.
  intros Hn Hd. unfold Float.round_half_even.
  pose proof (Z.div_mod num den ltac:(lia)) as E.
  pose proof (Z.mod_pos_bound num den Hd) as B.
  pose proof (Z.div_pos num den Hn Hd) as Q.
  destruct (Z.compare_spec (2 * (num mod den)) den) as [C | C | C];
    [ destruct (Z.even (num / den)) | | ]; split; nia.
Qed.


Lemma hundredths_nonneg m e : 0 <= Float.hundredths m e.
Proof.
  unfold Float.hundredths. destruct (Z.leb_spec 0 e).
  - assert (0 <= 2 ^ e) by (apply Z.pow_nonneg; lia). nia.
  - apply round_half_even_nearest; [ lia | ].
    apply Z.pow_pos_nonneg; lia.
Qed.

(** A finite float is printed with a sign, its whole part, a point and
    two digits. *)
Lemma format_2f_two_decimals x :
  Float.is_finite x = true ->
  exists (negative : bool) (whole d1 d2 : Z),
    0 <= whole /\ 0 <= d1 <= 9 /\ 0 <= d2 <= 9 /\
    Float.format_2f x =
    (if negative then "-" else "") ++ str_int whole ++ "."
      ++ Float.digit d1 ++ Float.digit d2.
Proof.
  intros Hfin.
  assert (H : exists neg h, 0 <= h /\ Float.format_2f x = Float.fixed2 neg h).
  { destruct x as [s | s | | s m e]; try discriminate.
    - exists s, 0. split; [ lia | reflexivity ].
    - exists s, (Float.hundredths m e).
      split; [ apply hundredths_nonneg | reflexivity ]. }
  destruct H as (neg & h & Hh & ->).
  exists neg, (h / 100), (h mod 100 / 10), (h mod 10).
  repeat split; try reflexivity.
  - apply Z.div_pos; lia.
  - apply Z.div_pos; [ | lia ]. apply Z.mod_pos_bound. lia.
  - pose proof (Z.mod_pos_bound h 100 ltac:(lia)).
    apply Z.lt_succ_r. apply Z.div_lt_upper_bound; lia.
  - apply Z.mod_pos_bound. lia.
  - pose proof (Z.mod_pos_bound h 10 ltac:(lia)). lia.
Qed.

(** ** The shaped trade table *)

(** C3.  For a non-empty list of trades (the seven required fields
    present, [profit_pct] a number), the shaped table has exactly the nine
    columns in the order of the specification, one row per trade; an
    optional column that every trade lacks holds the empty string in every
    row, and [profit_pct] holds the two-decimal text of the number followed
    by a percent sign. *)
Theorem C3_shaped_trade_table trades :
  trades <> [] ->
  forallb is_trade trades = true ->
  exists trade_df trade_df_display,
    shape_trades trades = Ok (trade_df, trade_df_display) /\
    DataFrame.columns trade_df_display =
    ["symbol"; "trade_type"; "entry_time"; "entry_price"; "entry_rsi";
     "exit_time"; "exit_price"; "exit_rsi"; "profit_pct"] /\
    DataFrame.rows trade_df_display =
    map (fun d => map (display_cell trades d) display_columns) trades /\
    forall d, In d trades ->
      (lacks "entry_rsi" trades = true ->
       display_cell trades d "entry_rsi" = CStr "") /\
      (lacks "exit_rsi" trades = true ->
       display_cell trades d "exit_rsi" = CStr "") /\
      exists x,
        lookup "profit_pct" d = Some (CNum x) /\
        display_cell trades d "profit_pct" = CStr (Float.format_2f x ++ "%") /\
        (Float.is_finite x = true ->
         exists (negative : bool) (whole d1 d2 : Z),
           0 <= whole /\ 0 <= d1 <= 9 /\ 0 <= d2 <= 9 /\
           Float.format_2f x =
           (if negative then "-" else "") ++ str_int whole ++ "."
             ++ Float.digit d1 ++ Float.digit d2).
Proof.
  intros Hne Hall.
  exists (frame_of (trade_cell trades) (trade_columns trades) trades),
         (frame_of (display_cell trades) display_columns trades).
  split; [ | split; [ reflexivity | split; [ reflexivity | ] ] ].
  - apply shape_trades_ok.
    + now apply trades_have_required.
    + now apply trades_profit_numbers.
  - intros d Hd. split; [ | split ].
    + intros Hl. unfold display_cell, trade_cell. simpl. now rewrite Hl.
    + intros Hl. unfold display_cell, trade_cell. simpl. now rewrite Hl.
    + rewrite forallb_forall in Hall.
      destruct (is_trade_profit d (Hall d Hd)) as [x Hx].
      exists x. split; [ exact Hx | split ].
      * unfold display_cell, trade_cell, cell_of. simpl. now rewrite Hx.
      * apply format_2f_two_decimals.
Qed.

Lemma C3_witness :
  [sample_trade] <> [] /\
  forallb is_trade [sample_trade] = true /\
  exists trade_df trade_df_display,
    shape_trades [sample_trade] = Ok (trade_df, trade_df_display) /\
    DataFrame.columns trade_df_display =
    ["symbol"; "trade_type"; "entry_time"; "entry_price"; "entry_rsi";
     "exit_time"; "exit_price"; "exit_rsi"; "profit_pct"] /\
    DataFrame.rows trade_df_display =
    [[CStr "BTC/USDT"; CStr "long"; CStr "2025-01-05 10:00";
      CNum (decimal 100 1); CStr ""; CStr "2025-01-05, 11:00";
      CNum (decimal 1025 10); CStr ""; CStr "2.50%"]].
Proof.
  assert (Hne : [sample_trade] <> []) by discriminate.
  assert (Hall : forallb is_trade [sample_trade] = true) by reflexivity.
  split; [ exact Hne | split; [ exact Hall | ] ].
  destruct (C3_shaped_trade_table [sample_trade] Hne Hall)
    as (trade_df & trade_df_display & H1 & H2 & H3 & _).
  exists trade_df, trade_df_display.
  split; [ exact H1 | split; [ exact H2 | ] ].
  rewrite H3. reflexivity.
Defined.

(** ** A required column that is missing *)

Lemma required_is_displayed col :
  In col required_columns -> In col display_columns.
Proof.
  unfold required_columns, display_columns. simpl. intuition.
Qed.

Lemma required_not_optional col :
  In col required_columns -> ~ In col optional_columns.
Proof.
  unfold required_columns, optional_columns. simpl.
  intros H [E | [E | []]]; subst col;
    repeat (destruct H as [H | H]; [ discriminate | ]); destruct H.
Qed.

(** C10.  Lines 193-195 add columns for [entry_rsi] and [exit_rsi] only.
    When one of the seven other columns is in no trade of a non-empty
    list, selecting the display columns raises [KeyError] naming it: the
    table is not drawn and no download is offered. *)
Theorem C10_missing_required_column_raises trades col :
  trades <> [] ->
  In col required_columns ->
  lacks col trades = true ->
  DataFrame.columns (ensure_optional_columns (DataFrame.from_records trades)) =
  fold_left DataFrame.add_label ["entry_rsi"; "exit_rsi"]
    (DataFrame.labels_of trades) /\
  exists missing,
    In col missing /\
    shape_trades trades = Raise (KeyError missing) /\
    forall repr now p w,
      trade_details repr now p trades w =
      (Raise (KeyError missing),
       {| session := session w;
          page := (page w ++ [st_subheader "📋 Trade Details"])%list;
          sent := sent w |}).
Proof.
  intros Hne Hreq Hlack.
  split; [ now rewrite ensure_frame | ].
  destruct (getitem_missing
              (ensure_optional_columns (DataFrame.from_records trades))
              display_columns col) as (missing & Hget & Hin).
  - now apply required_is_displayed.
  - rewrite ensure_frame. simpl. unfold trade_columns.
    rewrite add_labels_In. intros [H | H].
    + now apply lacks_labels in Hlack.
    + now apply required_not_optional in H.
  - exists missing. split; [ exact Hin | ].
    assert (Hshape : shape_trades trades = Raise (KeyError missing))
      by (unfold shape_trades; now rewrite Hget).
    split; [ exact Hshape | ].
    intros repr now p w. unfold trade_details, bind, lift, emit.
    destruct trades; [ congruence | ]. simpl nonempty. cbv iota.
    cbv beta. rewrite Hshape. reflexivity.
Qed.

Lemma C10_witness :
  exists missing,
    In "exit_time" missing /\
    shape_trades [trade_without_exit_time] = Raise (KeyError missing).
Proof.
  destruct (C10_missing_required_column_raises [trade_without_exit_time]
              "exit_time")
    as (_ & missing & Hin & Hshape & _).
  - discriminate.
  - unfold required_columns. simpl. tauto.
  - reflexivity.
  - exists missing. now split.
Defined.

(** ** Writing CSV and reading it back *)



















Example read_write_quoted :
  Csv.read (Csv.write [["a,b"; ""; String Csv.dquote "x"]; [""]; ["1.5"; "y"]]) =
  Some [["a,b"; ""; String Csv.dquote "x"]; [""]; ["1.5"; "y"]].
Proof. reflexivity. Qed.

(** A carriage return alone does not make the writer quote the field,
    and the reader ends the record there: one record is read back as
    two. *)
Example carriage_return_splits_the_record :
  Csv.write [[String "a" (String Csv.CR "b"); "c"]] =
  String "a" (String Csv.CR ("b,c" ++ Csv.newline)) /\
  Csv.read (Csv.write [[String "a" (String Csv.CR "b"); "c"]]) =
  Some [["a"]; ["b"; "c"]].
Proof. split; reflexivity. Qed.

(** ** The trade table and the download (lines 189-211) *)

Lemma trade_columns_In trades l :
  In l (trade_columns trades) <->
  In l (DataFrame.labels_of trades) \/ In l optional_columns.
Proof. apply add_labels_In. Qed.


Lemma invariant_bind {A B} P (m : M A) (k : A -> M B) :
  invariant P m -> (forall a, invariant P (k a)) -> invariant P (bind m k).
Proof.
  intros Hm Hk w Hw. unfold bind. specialize (Hm w Hw).
  destruct (m w) as [[a | e] w1]; simpl in Hm.
  - now apply Hk.
  - exact Hm.
Qed.

Lemma invariant_try_except {A} P (body : M A) (handler : exn -> M A) :
  invariant P body -> (forall e, invariant P (handler e)) ->
  invariant P (try_except body handler).
Proof.
  intros Hm Hk w Hw. unfold try_except. specialize (Hm w Hw).
  destruct (body w) as [[a | e] w1]; simpl in Hm.
  - exact Hm.
  - now apply Hk.
Qed.

Lemma invariant_preserves {A X} (f : World -> X) (Q : X -> Prop) (m : M A) :
  preserves f m -> invariant (fun w => Q (f w)) m.
Proof. intros H w Hw. now rewrite H. Qed.

Lemma emit_downloads e :
  download_names [e] = [] -> preserves downloads (emit e).
Proof.
  intros He w. unfold downloads, download_names, emit in *. simpl.
  rewrite flat_map_app. simpl in *. rewrite app_nil_r in He. rewrite He.
  apply app_nil_r.
Qed.

Lemma update_session_downloads g : preserves downloads (update_session g).
Proof. now intros w. Qed.

Lemma http_downloads {A} rq (r : reply A) : preserves downloads (http rq r).
Proof. intros w. unfold http. now destruct r. Qed.

#[local] Hint Resolve update_session_downloads http_downloads : pres.
#[local] Hint Extern 1 (preserves downloads (emit _)) =>
  apply emit_downloads; reflexivity : pres.

Lemma fetch_exchanges_downloads backend :
  preserves downloads (fetch_exchanges backend).
Proof. unfold fetch_exchanges. auto 20 with pres. Qed.

Lemma exchange_and_symbol_downloads repr backend ev :
  preserves downloads (exchange_and_symbol repr backend ev).
Proof. unfold exchange_and_symbol. auto 30 with pres. Qed.

Lemma summary_metrics_downloads smry : preserves downloads (summary_metrics smry).
Proof. unfold summary_metrics. auto 20 with pres. Qed.

Lemma named_preserves {A} name (m : M A) :
  preserves downloads m -> invariant (named name) m.
Proof.
  intros H. apply (invariant_preserves downloads (Forall (fun n => n = name))).
  exact H.
Qed.

Lemma trade_details_named repr now p trades sym :
  subscript p "symbol" = Ok (PStr sym) ->
  invariant (named (file_name (remove_char "/"%char sym) now))
    (trade_details repr now p trades).
Proof.
  intros Hsym w Hw. unfold trade_details, bind, lift, emit. simpl.
  destruct (nonempty trades); simpl.
  - destruct (shape_trades trades) as [[trade_df trade_df_display] | e]; simpl.
    + rewrite Hsym. simpl. unfold named, downloads, download_names in *.
      simpl. rewrite !flat_map_app. simpl. rewrite !app_nil_r.
      apply Forall_app. split; [ exact Hw | ]. now constructor.
    + unfold named, downloads, download_names in *. simpl.
      rewrite !flat_map_app. simpl. rewrite ?app_nil_r. exact Hw.
  - unfold named, downloads, download_names in *. simpl.
    rewrite !flat_map_app. simpl. rewrite ?app_nil_r. exact Hw.
Qed.

Lemma render_results_named repr now p result sym :
  subscript p "symbol" = Ok (PStr sym) ->
  invariant (named (file_name (remove_char "/"%char sym) now))
    (render_results repr now p result).
Proof.
  intros Hsym. unfold render_results.
  pose proof summary_metrics_downloads as Hm.
  repeat (apply invariant_bind;
          [ (apply trade_details_named; exact Hsym)
            || (apply named_preserves; auto 10 with pres)
          | intros ]).
  apply named_preserves. auto 10 with pres.
Qed.

Lemma submit_named repr backend now p sym :
  subscript p "symbol" = Ok (PStr sym) ->
  invariant (named (file_name (remove_char "/"%char sym) now))
    (submit repr backend now p).
Proof.
  intros Hsym. unfold submit. apply invariant_try_except.
  - apply invariant_bind; [ apply named_preserves; auto with pres | ].
    intros resp. destruct (status_code resp =? 200).
    + apply invariant_bind; [ apply named_preserves; auto with pres | ].
      intros result. now apply render_results_named.
    + apply named_preserves. auto with pres.
  - intros e. apply named_preserves. auto 10 with pres.
Qed.

Lemma results_column_named repr backend now inputs ev w :
  downloads w = [] ->
  named
    (file_name
       (remove_char "/"%char (get (selected_symbol (session w)) "BTC/USDT"))
       now)
    (snd (results_column repr backend now inputs ev w)).
Proof.
  intros Hw. unfold results_column. destruct (is_run_backtest ev).
  - unfold bind at 1. unfold read_session at 1.
    apply submit_named; [ reflexivity | ].
    unfold named. rewrite Hw. constructor.
  - assert (H : preserves downloads
                  (emit (st_info
                           "👈 Configure your parameters in the sidebar and click 'Run Backtest'");;
                   emit (st_subheader "Strategy Overview")))
      by auto with pres.
    unfold named. rewrite H, Hw. constructor.
Qed.

(** C8 (as the code has it).  The name of a download a run offers is
    "trades_", the symbol of the payload with every slash removed, the
    date of the client's clock as eight digits, and ".csv"; symbol and
    date are not separated.  Nothing of the backend's answer enters the
    name. *)
Theorem C8_download_file_name repr backend now inputs ev s name :
  In name
    (download_names (page (snd (rerun repr backend now inputs ev s)))) ->
  name =
  "trades_"
    ++ remove_char "/"%char
         (get (selected_symbol
                 (session (snd (rerun repr backend now inputs ev s))))
            "BTC/USDT")
    ++ strftime_Ymd now ++ ".csv".
Proof.
  unfold rerun, script.
  set (w0 := {| session := apply_event ev s; page := []; sent := [] |}).
  unfold bind.
  pose proof (fetch_exchanges_downloads backend w0) as H1.
  destruct (fetch_exchanges backend w0) as [[[] | e] w1]; simpl in H1.
  - pose proof (exchange_and_symbol_downloads repr backend ev w1) as H2.
    destruct (exchange_and_symbol repr backend ev w1) as [[[] | e] w2];
      simpl in H2.
    + assert (Hw2 : downloads w2 = []) by (rewrite H2, H1; reflexivity).
      pose proof (results_column_named repr backend now inputs ev w2 Hw2) as H3.
      rewrite results_column_session. intros Hin.
      unfold named in H3. rewrite Forall_forall in H3. now apply H3.
    + simpl. change (download_names (page w2)) with (downloads w2).
      rewrite H2, H1. intros [].
  - simpl. change (download_names (page w1)) with (downloads w1).
    rewrite H1. intros [].
Qed.

Lemma C8_witness :
  In "trades_BTCUSDT20250105.csv"
    (download_names
       (page (snd (rerun sample_repr successful_backend sample_now
                     sample_inputs ClickRunBacktest ready_session)))) /\
  "trades_BTCUSDT20250105.csv" =
  "trades_"
    ++ remove_char "/"%char
         (get (selected_symbol
                 (session (snd (rerun sample_repr successful_backend sample_now
                                  sample_inputs ClickRunBacktest
                                  ready_session))))
            "BTC/USDT")
    ++ strftime_Ymd sample_now ++ ".csv".
Proof.
  assert (Hin : In "trades_BTCUSDT20250105.csv"
                  (download_names
                     (page (snd (rerun sample_repr successful_backend sample_now
                                   sample_inputs ClickRunBacktest
                                   ready_session)))))
    by (vm_compute; left; reflexivity).
  split; [ exact Hin | ].
  exact (C8_download_file_name sample_repr successful_backend sample_now
           sample_inputs ClickRunBacktest ready_session _ Hin).
Defined.

(** C8 (the claim as stated fails).  For "BTC/USDT" on 5 January 2025
    the specification's pattern gives "trades_BTCUSDT_20250105.csv"; the
    run offers "trades_BTCUSDT20250105.csv". *)
Lemma C8_no_underscore_before_the_date :
  file_name_spec "BTC/USDT" sample_now = "trades_BTCUSDT_20250105.csv" /\
  download_names
    (page (snd (rerun sample_repr successful_backend sample_now
                  sample_inputs ClickRunBacktest ready_session)))
  = ["trades_BTCUSDT20250105.csv"] /\
  existsb (String.eqb (file_name_spec "BTC/USDT" sample_now))
    (download_names
       (page (snd (rerun sample_repr successful_backend sample_now
                     sample_inputs ClickRunBacktest ready_session))))
  = false.
Proof. vm_compute. repeat split. Qed.

(** ** The CSV export (lines 204-211) *)




Lemma has_key_lookup key d v : lookup key d = Some v -> has_key key d = true.
Proof. unfold has_key. now intros ->. Qed.

(** [trade_df] holds the values of the trades as they came. *)
Lemma trade_cell_own trades d key v :
  In d trades -> lookup key d = Some v -> trade_cell trades d key = v.
Proof.
  intros Hd Hl. unfold trade_cell.
  assert (E : lacks key trades = false).
  { destruct (lacks key trades) eqn:E; [ | reflexivity ].
    unfold lacks in E. rewrite forallb_forall in E. apply E in Hd.
    now rewrite (has_key_lookup _ _ _ Hl) in Hd. }
  rewrite E, andb_false_r. unfold cell_of. now rewrite Hl.
Qed.












(** The export of the sample run, read back. *)
Example sample_csv_data :
  exists trade_df trade_df_display,
    shape_trades [sample_trade] = Ok (trade_df, trade_df_display) /\
    Csv.read (DataFrame.to_csv sample_repr trade_df) =
    Some
      [["symbol"; "trade_type"; "entry_time"; "entry_price"; "exit_time";
        "exit_price"; "profit_pct"; "entry_rsi"; "exit_rsi"];
       ["BTC/USDT"; "long"; "2025-01-05 10:00"; "100.0"; "2025-01-05, 11:00";
        "102.5"; "2.5"; ""; ""]].
Proof. eexists. eexists. split; reflexivity. Qed.

(** A trade whose note holds a carriage return is exported on two
    lines: the export of one trade reads back as two records. *)
Example carriage_return_in_a_trade :
  let trade := (sample_trade ++ [("note", CStr (String "a" (String Csv.CR "b")))])%list in
  forallb is_trade [trade] = true /\
  forallb (exportable sample_repr) [trade] = false /\
  exists trade_df trade_df_display,
    shape_trades [trade] = Ok (trade_df, trade_df_display) /\
    option_map (@List.length _)
      (Csv.read (DataFrame.to_csv sample_repr trade_df)) = Some 3%nat.
Proof.
  split; [ reflexivity | split; [ reflexivity | ] ].
  eexists. eexists. split; reflexivity.
Qed.

(* ================================================================== *)
(** * Further properties of the script                                 *)
(* ================================================================== *)

(** ** The start-up fetch (lines 41-48) *)

Lemma fetch_exchanges_loaded backend w exs :
  exchanges (session w) = Some exs -> fetch_exchanges backend w = (Ok tt, w).
Proof.
  intros H. unfold fetch_exchanges, bind, read_session. now rewrite H.
Qed.

Lemma apply_event_exchanges ev s : exchanges (apply_event ev s) = exchanges s.
Proof. now destruct ev. Qed.

Lemma update_session_exchanges g :
  (forall s, exchanges (g s) = exchanges s) ->
  preserves stored_exchanges (update_session g).
Proof. intros H w. unfold stored_exchanges. simpl. apply H. Qed.

Lemma emit_exchanges e : preserves stored_exchanges (emit e).
Proof. now intros w. Qed.

Lemma http_exchanges {A} rq (r : reply A) : preserves stored_exchanges (http rq r).
Proof. intros w. unfold http. now destruct r. Qed.

#[local] Hint Resolve emit_exchanges http_exchanges : pres.
#[local] Hint Extern 1 (preserves stored_exchanges (update_session _)) =>
  apply update_session_exchanges; reflexivity : pres.

Lemma exchange_and_symbol_exchanges repr backend ev :
  preserves stored_exchanges (exchange_and_symbol repr backend ev).
Proof. unfold exchange_and_symbol. auto 30 with pres. Qed.

Lemma script_when_loaded repr backend now inputs ev w exs :
  exchanges (session w) = Some exs ->
  script repr backend now inputs ev w =
  bind (exchange_and_symbol repr backend ev)
    (fun _ => results_column repr backend now inputs ev) w.
Proof.
  intros H. unfold script.
  now rewrite (bind_ok _ _ _ _ _ (fetch_exchanges_loaded backend w exs H)).
Qed.

Lemma rerun_keeps_exchanges repr backend now inputs ev s exs :
  exchanges s = Some exs ->
  exchanges (session (snd (rerun repr backend now inputs ev s))) = Some exs.
Proof.
  intros H. unfold rerun. rewrite script_session_before_results.
  set (w0 := {| session := apply_event ev s; page := []; sent := [] |}).
  assert (H0 : exchanges (session w0) = Some exs)
    by (simpl; now rewrite apply_event_exchanges).
  rewrite (bind_ok _ _ _ _ _ (fetch_exchanges_loaded backend w0 exs H0)).
  change (stored_exchanges (snd (exchange_and_symbol repr backend ev w0))
          = Some exs).
  now rewrite exchange_and_symbol_exchanges.
Qed.

(** ** The requests of a run *)

Lemma symbols_url_str repr exchange :
  ("http://127.0.0.1:8080/symbols?exchange="
     ++ str_py repr (py_optional exchange))%string = symbols_url exchange.
Proof. now destruct exchange. Qed.

Lemma results_column_sent repr backend now inputs ev w :
  sent (snd (results_column repr backend now inputs ev w)) =
  (sent w ++
   if is_run_backtest ev then [POST trade_url (payload inputs (session w))]
   else [])%list.
Proof.
  unfold results_column. destruct (is_run_backtest ev).
  - unfold bind at 1. unfold read_session at 1. apply submit_sent.
  - assert (H : preserves sent
                  (emit (st_info
                           "👈 Configure your parameters in the sidebar and click 'Run Backtest'");;
                   emit (st_subheader "Strategy Overview")))
      by auto with pres.
    rewrite H. now rewrite app_nil_r.
Qed.

Lemma exchange_and_symbol_sent repr backend ev w exs :
  exchanges (session w) = Some exs ->
  sent (snd (exchange_and_symbol repr backend ev w)) =
  (sent w ++
   if is_fetch_symbols ev
   then [GET (symbols_url (selectbox exs (selected_exchange (session w))))]
   else [])%list.
Proof.
  intros H. unfold exchange_and_symbol, bind, read_session, lift, attribute.
  rewrite H. cbv beta iota.
  set (sel := selectbox exs (selected_exchange (session w))).
  rewrite symbols_url_str.
  destruct (is_fetch_symbols ev).
  - unfold http, update_session, emit. cbn [session page sent].
    destruct (symbols_endpoint backend _) as [r | e]; [ | reflexivity ].
    destruct (status_code r =? 200).
    + unfold response_json. destruct (json r) as [body | ]; [ | reflexivity ].
      cbn [session symbols set_symbols set_selected_exchange].
      destruct (get (symbols_member body) []); reflexivity.
    + reflexivity.
  - unfold update_session, emit, ret. cbn [session page sent].
    rewrite app_nil_r.
    cbn [symbols set_selected_exchange].
    destruct (symbols (session w)) as [[ | y ys] | ]; reflexivity.
Qed.

Lemma exchange_and_symbol_returns repr backend ev w exs :
  exchanges (session w) = Some exs ->
  is_fetch_symbols ev = false ->
  fst (exchange_and_symbol repr backend ev w) = Ok tt.
Proof.
  intros H Hev. unfold exchange_and_symbol, bind, read_session, lift, attribute.
  rewrite H, Hev. simpl.
  destruct (symbols (session w)) as [[ | y ys] | ]; reflexivity.
Qed.

(** The results column catches whatever is raised in it. *)
Lemma submit_returns repr backend now p w :
  fst (submit repr backend now p w) = Ok tt.
Proof.
  unfold submit, try_except.
  destruct (bind _ _ w) as [[[] | e] w1]; reflexivity.
Qed.

Lemma results_column_returns repr backend now inputs ev w :
  fst (results_column repr backend now inputs ev w) = Ok tt.
Proof.
  unfold results_column. destruct (is_run_backtest ev).
  - unfold bind at 1. unfold read_session at 1. apply submit_returns.
  - reflexivity.
Qed.

Lemma sent_when_loaded repr backend now inputs ev s exs :
  exchanges s = Some exs ->
  sent (snd (rerun repr backend now inputs ev s)) =
  requests_of inputs ev s
    (session (snd (rerun repr backend now inputs ev s))) exs.
Proof.
  intros H. unfold rerun.
  set (w0 := {| session := apply_event ev s; page := []; sent := [] |}).
  assert (H0 : exchanges (session w0) = Some exs)
    by (simpl; now rewrite apply_event_exchanges).
  rewrite (script_when_loaded _ _ _ _ _ _ _ H0). unfold bind.
  pose proof (exchange_and_symbol_sent repr backend ev w0 exs H0) as Hs.
  pose proof (exchange_and_symbol_returns repr backend ev w0 exs H0) as Hr.
  destruct (exchange_and_symbol repr backend ev w0) as [[[] | e] w1];
    simpl in Hs, Hr.
  - rewrite results_column_sent, results_column_session, Hs.
    destruct ev; reflexivity.
  - simpl. rewrite Hs.
    destruct ev; try reflexivity; simpl in Hr;
      specialize (Hr eq_refl); discriminate.
Qed.

(** X1.  With the exchanges loaded, what a run sends is decided by what
    the user did: one GET for the symbols of the selected exchange on
    "Fetch Symbols" (whatever the answer), one POST of the payload on
    "Run Backtest", and nothing otherwise. *)
Theorem X1_requests_follow_the_click repr backend now inputs ev s exs :
  exchanges s = Some exs ->
  sent (snd (rerun repr backend now inputs ev s)) =
  match ev with
  | ClickFetchSymbols =>
      [GET (symbols_url (selectbox exs (selected_exchange s)))]
  | ClickRunBacktest =>
      [POST trade_url
         (payload inputs (session (snd (rerun repr backend now inputs ev s))))]
  | _ => []
  end.
Proof. intros H. now rewrite (sent_when_loaded _ _ _ _ _ _ _ H). Qed.

Lemma X1_witness :
  sent (snd (rerun sample_repr two_exchange_backend sample_now sample_inputs
               ClickFetchSymbols session_with_symbols))
  = [GET "http://127.0.0.1:8080/symbols?exchange=binance"] /\
  sent (snd (rerun sample_repr two_exchange_backend sample_now sample_inputs
               (PickSymbol "BTC/USDT") session_with_symbols))
  = [].
Proof.
  split.
  - apply (X1_requests_follow_the_click sample_repr two_exchange_backend
             sample_now sample_inputs ClickFetchSymbols session_with_symbols
             ["binance"; "kraken"]).
    reflexivity.
  - apply (X1_requests_follow_the_click sample_repr two_exchange_backend
             sample_now sample_inputs (PickSymbol "BTC/USDT")
             session_with_symbols ["binance"; "kraken"]).
    reflexivity.
Defined.

(** X2.  The exchanges are fetched once: a session that holds them keeps
    them through every run, whatever the user does and whatever the
    backend answers, and no run asks for them again. *)
Theorem X2_exchanges_are_fetched_once repr backend now inputs ev s exs :
  exchanges s = Some exs ->
  exchanges (session (snd (rerun repr backend now inputs ev s))) = Some exs /\
  filter is_get_exchanges (sent (snd (rerun repr backend now inputs ev s))) = [].
Proof.
  intros H. split.
  - now apply rerun_keeps_exchanges.
  - rewrite (sent_when_loaded _ _ _ _ _ _ _ H).
    destruct ev; reflexivity.
Qed.

Lemma X2_witness :
  exchanges
    (session (snd (rerun sample_repr two_exchange_backend sample_now
                     sample_inputs ClickFetchSymbols session_with_symbols)))
  = Some ["binance"; "kraken"] /\
  filter is_get_exchanges
    (sent (snd (rerun sample_repr two_exchange_backend sample_now
                  sample_inputs ClickFetchSymbols session_with_symbols)))
  = [].
Proof.
  apply (X2_exchanges_are_fetched_once sample_repr two_exchange_backend
           sample_now sample_inputs ClickFetchSymbols session_with_symbols
           ["binance"; "kraken"]).
  reflexivity.
Defined.

(** X3.  The start-up fetch is outside any [try]: when the backend cannot
    be reached the exception stops the run with nothing drawn and the
    session as it was, so the next run asks again. *)
Theorem X3_unreachable_at_start_up_stops_the_run repr backend now inputs ev s e :
  exchanges s = None ->
  exchanges_endpoint backend = Failed e ->
  rerun repr backend now inputs ev s =
  (Raise e,
   {| session := apply_event ev s; page := []; sent := [GET exchanges_url] |}) /\
  exchanges (apply_event ev s) = None.
Proof.
  intros Hs Hb. split; [ | now rewrite apply_event_exchanges ].
  unfold rerun, script, fetch_exchanges, bind, read_session, http.
  simpl. rewrite apply_event_exchanges, Hs, Hb. reflexivity.
Qed.

Lemma X3_witness :
  rerun sample_repr unreachable_backend sample_now sample_inputs Rerun
    new_session =
  (Raise (RequestException "Connection refused"),
   {| session := new_session; page := []; sent := [GET exchanges_url] |}).
Proof.
  apply (X3_unreachable_at_start_up_stops_the_run sample_repr
           unreachable_backend sample_now sample_inputs Rerun new_session
           (RequestException "Connection refused")); reflexivity.
Defined.

(** X4.  The first run of a session whose exchange request is answered
    with 200: the returned list is stored (the empty list when the member
    is absent), the exchange box offers exactly that list with its first
    entry selected, no symbol can be chosen yet, and the one request sent
    is the GET for the exchanges. *)
Theorem X4_first_run_loads_the_exchanges repr backend now inputs r body :
  exchanges_endpoint backend = Answered r ->
  status_code r = 200 ->
  json r = Some body ->
  rerun repr backend now inputs Rerun new_session =
  (Ok tt,
   {| session :=
        {| exchanges := Some (get (exchanges_member body) []);
           symbols := None;
           selected_exchange := hd_error (get (exchanges_member body) []);
           selected_symbol := None |};
      page :=
        [st_selectbox "Select Exchange" (get (exchanges_member body) [])
           (hd_error (get (exchanges_member body) []));
         st_info "Click 'Fetch Symbols' to load available symbols.";
         st_info
           "👈 Configure your parameters in the sidebar and click 'Run Backtest'";
         st_subheader "Strategy Overview"];
      sent := [GET exchanges_url] |}).
Proof.
  intros Hb Hst Hj.
  unfold rerun, script, fetch_exchanges, exchange_and_symbol, results_column,
    bind, read_session, http, lift, response_json, attribute.
  simpl. rewrite Hb. simpl. rewrite Hst. simpl. rewrite Hj. reflexivity.
Qed.

Lemma X4_witness :
  rerun sample_repr successful_backend sample_now sample_inputs Rerun
    new_session =
  (Ok tt,
   {| session := ready_session;
      page :=
        [st_selectbox "Select Exchange" ["binance"; "kraken"] (Some "binance");
         st_info "Click 'Fetch Symbols' to load available symbols.";
         st_info
           "👈 Configure your parameters in the sidebar and click 'Run Backtest'";
         st_subheader "Strategy Overview"];
      sent := [GET exchanges_url] |}).
Proof.
  apply (X4_first_run_loads_the_exchanges sample_repr successful_backend
           sample_now sample_inputs
           {| status_code := 200; text := "";
              json := Some {| exchanges_member := Some ["binance"; "kraken"] |} |}
           {| exchanges_member := Some ["binance"; "kraken"] |});
    reflexivity.
Defined.

(** ** Nothing drawn is taken back *)

Lemma grows_ret {A} (a : A) : grows (ret a).
Proof. intros w. exists []. simpl. now rewrite app_nil_r. Qed.

Lemma grows_lift {A} (r : result A) : grows (lift r).
Proof. intros w. exists []. simpl. now rewrite app_nil_r. Qed.

Lemma grows_read_session : grows read_session.
Proof. intros w. exists []. simpl. now rewrite app_nil_r. Qed.

Lemma grows_update_session g : grows (update_session g).
Proof. intros w. exists []. simpl. now rewrite app_nil_r. Qed.

Lemma grows_emit e : grows (emit e).
Proof. intros w. now exists [e]. Qed.

Lemma grows_http {A} rq (r : reply A) : grows (http rq r).
Proof.
  intros w. exists []. unfold http. destruct r; simpl; now rewrite app_nil_r.
Qed.

Lemma grows_bind {A B} (m : M A) (k : A -> M B) :
  grows m -> (forall a, grows (k a)) -> grows (bind m k).
Proof.
  intros Hm Hk w. unfold bind. destruct (Hm w) as [l1 H1].
  destruct (m w) as [[a | e] w1]; simpl in H1.
  - destruct (Hk a w1) as [l2 H2]. exists (l1 ++ l2)%list.
    now rewrite H2, H1, app_assoc.
  - now exists l1.
Qed.

Lemma grows_try_except {A} (body : M A) (handler : exn -> M A) :
  grows body -> (forall e, grows (handler e)) -> grows (try_except body handler).
Proof.
  intros Hm Hk w. unfold try_except. destruct (Hm w) as [l1 H1].
  destruct (body w) as [[a | e] w1]; simpl in H1.
  - now exists l1.
  - destruct (Hk e w1) as [l2 H2]. exists (l1 ++ l2)%list.
    now rewrite H2, H1, app_assoc.
Qed.

Create HintDb grows discriminated.
#[local] Hint Resolve grows_ret grows_lift grows_read_session
  grows_update_session grows_emit grows_http : grows.
#[local] Hint Extern 2 (grows (bind _ _)) =>
  apply grows_bind; [ | intros ] : grows.
#[local] Hint Extern 2 (grows (try_except _ _)) =>
  apply grows_try_except; [ | intros ] : grows.
#[local] Hint Extern 3 (grows (match ?x with _ => _ end)) =>
  destruct x : grows.

Lemma exchange_and_symbol_grows repr backend ev :
  grows (exchange_and_symbol repr backend ev).
Proof. unfold exchange_and_symbol. auto 30 with grows. Qed.

Lemma summary_metrics_grows smry : grows (summary_metrics smry).
Proof. unfold summary_metrics. auto 20 with grows. Qed.

Lemma trade_details_grows repr now p trades :
  grows (trade_details repr now p trades).
Proof. unfold trade_details. auto 20 with grows. Qed.

#[local] Hint Resolve summary_metrics_grows trade_details_grows : grows.

Lemma render_results_grows repr now p result :
  grows (render_results repr now p result).
Proof. unfold render_results. auto 20 with grows. Qed.

#[local] Hint Resolve render_results_grows : grows.

Lemma results_column_grows repr backend now inputs ev :
  grows (results_column repr backend now inputs ev).
Proof. unfold results_column, submit. auto 20 with grows. Qed.

(** The rest of the script after the start-up fetch. *)
Lemma after_start_up_grows repr backend now inputs ev :
  grows (bind (exchange_and_symbol repr backend ev)
           (fun _ => results_column repr backend now inputs ev)).
Proof.
  apply grows_bind; [ apply exchange_and_symbol_grows | intros _ ].
  apply results_column_grows.
Qed.

(** X5.  A start-up fetch that is answered with a status other than 200
    shows "Error fetching exchanges." first on the page and stores the
    empty list.  The key is then set, so no later run of the session asks
    for the exchanges again, whatever the backend would answer: the list
    stays empty. *)
Theorem X5_failed_start_up_is_not_retried repr backend now inputs ev s r :
  exchanges s = None ->
  exchanges_endpoint backend = Answered r ->
  status_code r <> 200 ->
  let w1 := snd (rerun repr backend now inputs ev s) in
  exchanges (session w1) = Some [] /\
  hd_error (page w1) = Some (st_error "Error fetching exchanges.") /\
  forall backend' inputs' ev',
    let w2 := snd (rerun repr backend' now inputs' ev' (session w1)) in
    exchanges (session w2) = Some [] /\
    filter is_get_exchanges (sent w2) = [].
Proof.
  intros Hs Hb Hst w1.
  assert (Hfetch :
    fetch_exchanges backend
      {| session := apply_event ev s; page := []; sent := [] |} =
    (Ok tt,
     {| session := set_exchanges [] (apply_event ev s);
        page := [st_error "Error fetching exchanges."];
        sent := [GET exchanges_url] |})).
  { unfold fetch_exchanges, bind, read_session, http. simpl.
    rewrite apply_event_exchanges, Hs, Hb. simpl.
    destruct (Z.eqb_spec (status_code r) 200); [ contradiction | reflexivity ]. }
  assert (H1 : exchanges (session w1) = Some []).
  { unfold w1, rerun. rewrite script_session_before_results.
    rewrite (bind_ok _ _ _ _ _ Hfetch).
    change (stored_exchanges
              (snd (exchange_and_symbol repr backend ev
                      {| session := set_exchanges [] (apply_event ev s);
                         page := [st_error "Error fetching exchanges."];
                         sent := [GET exchanges_url] |})) = Some []).
    now rewrite exchange_and_symbol_exchanges. }
  split; [ exact H1 | split ].
  - unfold w1, rerun, script. rewrite (bind_ok _ _ _ _ _ Hfetch).
    destruct (after_start_up_grows repr backend now inputs ev
                {| session := set_exchanges [] (apply_event ev s);
                   page := [st_error "Error fetching exchanges."];
                   sent := [GET exchanges_url] |}) as [more Hmore].
    rewrite Hmore. reflexivity.
  - intros backend' inputs' ev' w2. split.
    + now apply rerun_keeps_exchanges.
    + unfold w2. rewrite (sent_when_loaded _ _ _ _ _ _ _ H1).
      destruct ev'; reflexivity.
Qed.

Lemma X5_witness :
  let w1 :=
    snd (rerun sample_repr failing_backend sample_now sample_inputs Rerun
           new_session) in
  exchanges (session w1) = Some [] /\
  hd_error (page w1) = Some (st_error "Error fetching exchanges.") /\
  exchanges
    (session (snd (rerun sample_repr successful_backend sample_now
                     sample_inputs Rerun (session w1)))) = Some [].
Proof.
  destruct (X5_failed_start_up_is_not_retried sample_repr failing_backend
              sample_now sample_inputs Rerun new_session
              {| status_code := 500; text := "internal error"; json := None |}
              eq_refl eq_refl ltac:(simpl; discriminate))
    as (H1 & H2 & H3).
  split; [ exact H1 | split; [ exact H2 | ] ].
  apply (H3 successful_backend sample_inputs Rerun).
Defined.

(** ** Fetching symbols when the backend cannot be reached *)

(** X6.  The symbol fetch is outside any [try] as well: when the request
    fails at the transport, the exception stops the run after the exchange
    box, the results column is not drawn, and the stored symbols and the
    selected symbol stay as they were (a status other than 200 would have
    replaced the symbols by the empty list). *)
Theorem X6_unreachable_symbol_fetch_stops_the_run repr backend now inputs s exs e :
  exchanges s = Some exs ->
  (forall x, symbols_endpoint backend x = Failed e) ->
  rerun repr backend now inputs ClickFetchSymbols s =
  (Raise e,
   {| session :=
        {| exchanges := exchanges s; symbols := symbols s;
           selected_exchange := selectbox exs (selected_exchange s);
           selected_symbol := selected_symbol s |};
      page :=
        [st_selectbox "Select Exchange" exs
           (selectbox exs (selected_exchange s))];
      sent := [GET (symbols_url (selectbox exs (selected_exchange s)))] |}).
Proof.
  intros H Hf. unfold rerun. simpl apply_event.
  rewrite (script_when_loaded _ _ _ _ _ _ exs) by exact H.
  unfold bind at 1.
  unfold exchange_and_symbol, bind, read_session, lift, attribute.
  cbn [session]. rewrite H. cbv beta iota.
  set (sel := selectbox exs (selected_exchange s)).
  rewrite symbols_url_str.
  unfold http, update_session, emit. cbn [session page sent is_fetch_symbols].
  rewrite Hf. unfold set_selected_exchange. rewrite H. reflexivity.
Qed.

Lemma X6_witness :
  rerun sample_repr unreachable_backend sample_now sample_inputs
    ClickFetchSymbols session_with_symbols =
  (Raise (RequestException "Connection refused"),
   {| session := session_with_symbols;
      page :=
        [st_selectbox "Select Exchange" ["binance"; "kraken"] (Some "binance")];
      sent := [GET "http://127.0.0.1:8080/symbols?exchange=binance"] |}).
Proof.
  apply (X6_unreachable_symbol_fetch_stops_the_run sample_repr
           unreachable_backend sample_now sample_inputs session_with_symbols
           ["binance"; "kraken"] (RequestException "Connection refused")).
  - reflexivity.
  - intros x. reflexivity.
Defined.

(** ** Runs that return *)

(** X7.  Whatever is raised in the results column is caught there: with
    the exchanges loaded, every run that does not fetch symbols returns
    normally, a submission included, whatever the backend does. *)
Theorem X7_run_returns repr backend now inputs ev s exs :
  exchanges s = Some exs ->
  is_fetch_symbols ev = false ->
  fst (rerun repr backend now inputs ev s) = Ok tt.
Proof.
  intros H Hev. unfold rerun.
  set (w0 := {| session := apply_event ev s; page := []; sent := [] |}).
  assert (H0 : exchanges (session w0) = Some exs)
    by (simpl; now rewrite apply_event_exchanges).
  rewrite (script_when_loaded _ _ _ _ _ _ _ H0). unfold bind.
  pose proof (exchange_and_symbol_returns repr backend ev w0 exs H0 Hev) as Hr.
  destruct (exchange_and_symbol repr backend ev w0) as [[[] | e] w1];
    simpl in Hr; [ | discriminate ].
  apply results_column_returns.
Qed.

Lemma X7_witness :
  fst (rerun sample_repr unreachable_backend sample_now sample_inputs
         ClickRunBacktest ready_session) = Ok tt.
Proof.
  apply (X7_run_returns sample_repr unreachable_backend sample_now
           sample_inputs ClickRunBacktest ready_session ["binance"; "kraken"]);
    reflexivity.
Defined.

(** ** The selected symbol *)

Lemma selectbox_offered options current v :
  selectbox options current = Some v -> In v options.
Proof.
  unfold selectbox.
  assert (Hhd : hd_error options = Some v -> In v options)
    by (destruct options; simpl; [ discriminate | intros [= ->]; now left ]).
  destruct current as [c | ]; [ | exact Hhd ].
  destruct (existsb (String.eqb c) options) eqn:E; [ | exact Hhd ].
  intros [= <-]. apply existsb_exists in E as (x & Hx & Ex).
  apply String.eqb_eq in Ex. now subst.
Qed.

Lemma selectbox_some y ys current :
  exists v, selectbox (y :: ys) current = Some v /\ In v (y :: ys).
Proof.
  destruct (selectbox (y :: ys) current) as [v | ] eqn:E.
  - exists v. split; [ reflexivity | now apply selectbox_offered in E ].
  - unfold selectbox in E. destruct current as [c | ]; [ | discriminate ].
    destruct (existsb (String.eqb c) (y :: ys)); discriminate.
Qed.

Section Selection.

#[local] Arguments selectbox : simpl never.

Lemma exchange_and_symbol_selection repr backend ev w w' :
  exchange_and_symbol repr backend ev w = (Ok tt, w') ->
  forall y ys, symbols (session w') = Some (y :: ys) ->
  exists v, selected_symbol (session w') = Some v /\ In v (y :: ys).
Proof.
  unfold exchange_and_symbol, bind, read_session, lift, attribute, http,
    response_json, update_session, emit, ret.
  destruct (exchanges (session w)) as [exs | ]; [ | discriminate ].
  cbv beta iota. cbn [session page sent].
  destruct (is_fetch_symbols ev).
  - destruct (symbols_endpoint backend _) as [r | e]; [ | discriminate ].
    destruct (status_code r =? 200).
    + destruct (json r) as [body | ]; [ | discriminate ].
      cbn [session page sent symbols set_symbols set_selected_exchange].
      destruct (get (symbols_member body) []) as [ | y0 ys0];
        intros [= <-]; cbn; intros y ys [= <- <-]; apply selectbox_some.
    + cbn. intros [= <-]. cbn. discriminate.
  - cbn [session symbols set_selected_exchange].
    destruct (symbols (session w)) as [[ | y0 ys0] | ] eqn:E;
      intros [= <-]; cbn; rewrite ?E; try discriminate.
    intros y ys [= <- <-]. apply selectbox_some.
Qed.

Lemma exchange_and_symbol_without_fetch repr backend ev w exs :
  exchanges (session w) = Some exs ->
  is_fetch_symbols ev = false ->
  session (snd (exchange_and_symbol repr backend ev w)) =
  {| exchanges := Some exs;
     symbols := symbols (session w);
     selected_exchange := selectbox exs (selected_exchange (session w));
     selected_symbol :=
       match symbols (session w) with
       | Some (y :: ys) => selectbox (y :: ys) (selected_symbol (session w))
       | _ => selected_symbol (session w)
       end |}.
Proof.
  intros H Hev.
  unfold exchange_and_symbol, bind, read_session, lift, attribute,
    update_session, emit, ret.
  rewrite H, Hev. cbv beta iota. cbn [session symbols set_selected_exchange].
  destruct (symbols (session w)) as [[ | y ys] | ] eqn:E; cbn;
    unfold set_selected_exchange, set_selected_symbol; cbn;
    now rewrite ?H, ?E.
Qed.

End Selection.

Lemma rerun_selection repr backend now inputs ev s w :
  rerun repr backend now inputs ev s = (Ok tt, w) ->
  forall y ys, symbols (session w) = Some (y :: ys) ->
  exists v, selected_symbol (session w) = Some v /\ In v (y :: ys).
Proof.
  intros Hrun.
  assert (Hs : session w =
               session (snd (rerun repr backend now inputs ev s)))
    by now rewrite Hrun.
  unfold rerun in Hrun, Hs. rewrite script_session_before_results in Hs.
  unfold script in Hrun.
  apply bind_inv in Hrun as [(a & w1 & H1 & Hrun) | (e & _ & He)];
    [ | discriminate ].
  apply bind_inv in Hrun as [(b & w2 & H2 & Hrun) | (e & _ & He)];
    [ | discriminate ].
  rewrite (bind_ok _ _ _ _ _ H1), H2 in Hs. simpl in Hs. rewrite Hs.
  destruct b. now apply (exchange_and_symbol_selection repr backend ev w1 w2).
Qed.

(** X8.  After a run that returns, a session that holds symbols has one
    of them selected: the symbol a submission sends is always taken from
    the stored list. *)
Theorem X8_selected_symbol_is_a_stored_symbol repr backend now inputs ev s w :
  rerun repr backend now inputs ev s = (Ok tt, w) ->
  forall y ys, symbols (session w) = Some (y :: ys) ->
  exists v, selected_symbol (session w) = Some v /\ In v (y :: ys).
Proof. apply rerun_selection. Qed.

Lemma X8_witness :
  exists v,
    selected_symbol
      (session (snd (rerun sample_repr two_exchange_backend sample_now
                       sample_inputs ClickFetchSymbols ready_session)))
    = Some v /\
    In v ["BTC/USDT"; "ETH/USDT"; "SOL/USDT"].
Proof.
  apply (X8_selected_symbol_is_a_stored_symbol sample_repr
           two_exchange_backend sample_now sample_inputs ClickFetchSymbols
           ready_session
           (snd (rerun sample_repr two_exchange_backend sample_now
                   sample_inputs ClickFetchSymbols ready_session))
           eq_refl "BTC/USDT" ["ETH/USDT"; "SOL/USDT"] eq_refl).
Defined.

Lemma rerun_session_without_fetch repr backend now inputs ev s exs :
  exchanges s = Some exs ->
  is_fetch_symbols ev = false ->
  session (snd (rerun repr backend now inputs ev s)) =
  {| exchanges := Some exs;
     symbols := symbols (apply_event ev s);
     selected_exchange :=
       selectbox exs (selected_exchange (apply_event ev s));
     selected_symbol :=
       match symbols (apply_event ev s) with
       | Some (y :: ys) =>
           selectbox (y :: ys) (selected_symbol (apply_event ev s))
       | _ => selected_symbol (apply_event ev s)
       end |}.
Proof.
  intros H Hev. unfold rerun. rewrite script_session_before_results.
  set (w0 := {| session := apply_event ev s; page := []; sent := [] |}).
  assert (H0 : exchanges (session w0) = Some exs)
    by (simpl; now rewrite apply_event_exchanges).
  rewrite (bind_ok _ _ _ _ _ (fetch_exchanges_loaded backend w0 exs H0)).
  now rewrite (exchange_and_symbol_without_fetch _ _ _ _ exs).
Qed.

(** X9.  Picking another exchange does not touch the stored symbols, and
    nothing checks a symbol against the exchange: after symbols were
    fetched for [a] and exchange [b] was picked without fetching, a
    submission sends exchange [b] together with a symbol of [a]'s list. *)
Theorem X9_symbol_of_the_previous_exchange_is_sent repr backend now inputs
    s0 exs a b r body y ys :
  exchanges s0 = Some exs ->
  selected_exchange s0 = Some a ->
  In a exs -> In b exs ->
  symbols_endpoint backend a = Answered r ->
  status_code r = 200 -> json r = Some body ->
  returned_symbols body = y :: ys ->
  let s1 := session (snd (rerun repr backend now inputs ClickFetchSymbols s0)) in
  let s2 := session (snd (rerun repr backend now inputs (PickExchange b) s1)) in
  let w3 := snd (rerun repr backend now inputs ClickRunBacktest s2) in
  exists v request_body,
    In v (y :: ys) /\
    sent w3 = [POST trade_url request_body] /\
    subscript request_body "exchange" = Ok (PStr b) /\
    subscript request_body "symbol" = Ok (PStr v).
Proof.
  intros Hex Hsel Ha Hb Hr Hst Hj Hret s1 s2 w3.
  destruct (fetch_symbols_ok repr backend now inputs s0 exs a r body
              Hex Hsel Ha Hr Hst Hj) as (Hex1 & _ & Hsy1 & _).
  fold s1 in Hex1, Hsy1. rewrite Hret in Hsy1.
  destruct (pick_exchange_keeps_symbols repr backend now inputs s1 exs b
              Hex1 Hb) as (Hex2 & Hsel2 & Hsy2).
  fold s2 in Hex2, Hsel2, Hsy2. rewrite Hsy1 in Hsy2.
  pose proof (rerun_session_without_fetch repr backend now inputs
                ClickRunBacktest s2 exs Hex2 eq_refl) as Hs3.
  fold w3 in Hs3. simpl apply_event in Hs3.
  rewrite Hsel2, Hsy2 in Hs3.
  destruct (selectbox_some y ys (selected_symbol s2)) as (v & Hv & Hin).
  rewrite Hv in Hs3.
  assert (Hb' : selectbox exs (Some b) = Some b)
    by (unfold selectbox; now rewrite (offered _ _ Hb)).
  rewrite Hb' in Hs3.
  exists v, (payload inputs (session w3)).
  split; [ exact Hin | split ].
  - unfold w3. now rewrite (sent_when_loaded _ _ _ _ _ _ _ Hex2).
  - rewrite Hs3. split; reflexivity.
Qed.

Lemma X9_witness :
  let s1 :=
    session (snd (rerun sample_repr two_exchange_backend sample_now
                    sample_inputs ClickFetchSymbols ready_session)) in
  let s2 :=
    session (snd (rerun sample_repr two_exchange_backend sample_now
                    sample_inputs (PickExchange "kraken") s1)) in
  let w3 :=
    snd (rerun sample_repr two_exchange_backend sample_now sample_inputs
           ClickRunBacktest s2) in
  exists v request_body,
    In v ["BTC/USDT"; "ETH/USDT"; "SOL/USDT"] /\
    sent w3 = [POST trade_url request_body] /\
    subscript request_body "exchange" = Ok (PStr "kraken") /\
    subscript request_body "symbol" = Ok (PStr v).
Proof.
  apply (X9_symbol_of_the_previous_exchange_is_sent sample_repr
           two_exchange_backend sample_now sample_inputs ready_session
           ["binance"; "kraken"] "binance" "kraken"
           {| status_code := 200; text := "";
              json := Some {| symbols_member :=
                                Some ["BTC/USDT"; "ETH/USDT"; "SOL/USDT"] |} |}
           {| symbols_member := Some ["BTC/USDT"; "ETH/USDT"; "SOL/USDT"] |}
           "BTC/USDT" ["ETH/USDT"; "SOL/USDT"]);
    try reflexivity; simpl; auto.
Defined.

(** ** A 200 answer (lines 163-218) *)

(** What a 200 answer leaves: the connection error for a body that is
    not JSON and for whatever drawing the result raises, below what was
    drawn before. *)
Lemma submit_answered repr backend now p w r :
  trade_endpoint backend p = Answered r ->
  status_code r = 200 ->
  submit repr backend now p w =
  (Ok tt,
   match json r with
   | None => draw (connection_error JSONDecodeError) (posted p w)
   | Some result =>
       match render_results repr now p result (posted p w) with
       | (Ok _, w2) => w2
       | (Raise e, w2) => draw (connection_error e) w2
       end
   end).
Proof.
  intros Hb Hst.
  unfold submit, try_except, bind, http, lift, response_json.
  rewrite Hb, Hst. simpl. unfold posted, trade_url.
  destruct (json r) as [result | ].
  - match goal with
    | |- context [render_results ?a ?b ?c ?d ?w1] =>
        destruct (render_results a b c d w1) as [[[] | e] w2]
    end.
    + reflexivity.
    + unfold emit, draw, connection_error. simpl. now rewrite <- app_assoc.
  - unfold emit, draw, connection_error. simpl. now rewrite <- app_assoc.
Qed.

Lemma contains_trade_columns l trades :
  DataFrame.contains l (trade_columns trades) =
  negb (lacks l trades) || DataFrame.contains l optional_columns.
Proof.
  rewrite lacks_contains, negb_involutive.
  apply eq_iff_eq_true.
  rewrite orb_true_iff, !contains_In. apply trade_columns_In.
Qed.

(** The labels the selection of line 197 does not find are the required
    columns that no trade has. *)
Lemma display_columns_missing trades :
  filter (fun l => negb (DataFrame.contains l (trade_columns trades)))
    display_columns =
  missing_columns trades.
Proof.
  unfold display_columns, missing_columns, required_columns.
  cbn [filter]. rewrite !contains_trade_columns.
  unfold DataFrame.contains, optional_columns. cbn [existsb].
  repeat match goal with
         | |- context [String.eqb ?a ?b] =>
             let v := eval vm_compute in (String.eqb a b) in
             change (String.eqb a b) with v
         end.
  cbn [orb]. rewrite !orb_false_r, !orb_true_r, !negb_involutive.
  reflexivity.
Qed.

Lemma shape_trades_missing trades :
  missing_columns trades <> [] ->
  shape_trades trades = Raise (KeyError (missing_columns trades)).
Proof.
  intros Hm. unfold shape_trades, DataFrame.getitem.
  rewrite ensure_frame. cbn [DataFrame.columns frame_of].
  rewrite display_columns_missing.
  destruct (missing_columns trades); [ congruence | reflexivity ].
Qed.

(** X10.  A 200 answer whose trades lack a required column of the table:
    the selection of line 197 raises inside the [try] of line 161, so the
    run draws the heading, the four metrics, the chart and the "Trade
    Details" heading, and below them, in place of the table, the download
    and the historical data, the message "Connection error: " with the
    text of the [KeyError], which names the missing columns, and the hint
    to start the backend.  One POST was sent and the submission
    returns. *)
Theorem X10_missing_column_is_a_connection_error
    repr backend now p w r result symbol exchange percent :
  trade_endpoint backend p = Answered r ->
  status_code r = 200 ->
  json r = Some result ->
  subscript p "symbol" = Ok symbol ->
  subscript p "exchange" = Ok exchange ->
  win_rate_percent
    (get (winning_trades (get (summary result) empty_summary)) 0)
    (get (total_trades (get (summary result) empty_summary)) 1) = Ok percent ->
  get (trades result) [] <> [] ->
  missing_columns (get (trades result) []) <> [] ->
  submit repr backend now p w =
  (Ok tt,
   draw
     [ st_subheader ("Backtest Results for " ++ str_py repr symbol ++ " on "
                       ++ str_py repr exchange);
       st_metric "Total Trades"
         (str_int (get (total_trades (get (summary result) empty_summary)) 0));
       st_metric "Winning Trades"
         (str_int (get (winning_trades (get (summary result) empty_summary)) 0)
            ++ " (" ++ str_int percent ++ "%)");
       st_metric "Total Return"
         (Float.format_2f
            (get (total_profit_pct (get (summary result) empty_summary))
               (Float.of_int 0)) ++ "%");
       st_metric "Avg. Trade"
         (Float.format_2f
            (get (avg_profit_per_trade (get (summary result) empty_summary))
               (Float.of_int 0)) ++ "%");
       st_subheader "📊 Technical Analysis Plot";
       match get (plot result) "" with
       | EmptyString => st_info "No plot available."
       | plot_img => st_image ("data:image/png;base64," ++ plot_img)
       end;
       st_subheader "📋 Trade Details";
       st_error
         ("Connection error: " ++ quotation_mark
            ++ repr_labels (missing_columns (get (trades result) []))
            ++ " not in index" ++ quotation_mark);
       st_info "Ensure the backend server is running on http://127.0.0.1:8080" ]
     (posted p w)).
Proof.
  intros Hb Hst Hjson Hsym Hex Hwin Hne Hmiss.
  rewrite (submit_answered repr backend now p w r Hb Hst), Hjson.
  unfold render_results, summary_metrics, trade_details, bind, lift, emit.
  cbn [posted session page sent].
  rewrite Hsym, Hex, Hwin. cbn [session page sent].
  rewrite (shape_trades_missing _ Hmiss).
  unfold draw, connection_error, posted, str_exn.
  destruct (get (trades result) []) as [ | d trades]; [ congruence | ].
  destruct (get (plot result) "") as [ | c plot_img];
    cbn [nonempty_str nonempty session page sent];
    rewrite <- !app_assoc; reflexivity.
Qed.

Lemma X10_witness :
  let backend :=
    sample_backend (symbols_answer [])
      (answer 200 ""
         (Some {| trades := Some [trade_without_exit_time]; data := None;
                  plot := None; summary := Some sample_summary |})) in
  missing_columns [trade_without_exit_time] = ["exit_time"] /\
  submit sample_repr backend sample_now (payload sample_inputs ready_session)
    {| session := ready_session; page := []; sent := [] |} =
  (Ok tt,
   {| session := ready_session;
      page :=
        [ st_subheader "Backtest Results for BTC/USDT on binance";
          st_metric "Total Trades" "1";
          st_metric "Winning Trades" "1 (100%)";
          st_metric "Total Return" "2.50%";
          st_metric "Avg. Trade" "2.50%";
          st_subheader "📊 Technical Analysis Plot";
          st_info "No plot available.";
          st_subheader "📋 Trade Details";
          st_error
            ("Connection error: " ++ quotation_mark
               ++ "['exit_time'] not in index" ++ quotation_mark);
          st_info
            "Ensure the backend server is running on http://127.0.0.1:8080" ];
      sent := [POST trade_url (payload sample_inputs ready_session)] |}).
Proof.
  split; [ reflexivity | ].
  apply (X10_missing_column_is_a_connection_error sample_repr
           (sample_backend (symbols_answer [])
              (answer 200 ""
                 (Some {| trades := Some [trade_without_exit_time];
                          data := None; plot := None;
                          summary := Some sample_summary |})))
           sample_now (payload sample_inputs ready_session)
           {| session := ready_session; page := []; sent := [] |}
           {| status_code := 200; text := "";
              json := Some {| trades := Some [trade_without_exit_time];
                              data := None; plot := None;
                              summary := Some sample_summary |} |}
           {| trades := Some [trade_without_exit_time]; data := None;
              plot := None; summary := Some sample_summary |}
           (PStr "BTC/USDT") (PStr "binance") 100);
    reflexivity || discriminate.
Defined.

(** X11.  A result without trades (the member absent or the empty list)
    whose win rate can be computed is drawn in full: the heading, the four
    metrics, the chart or "No plot available.", "No trades executed.
    Adjust parameters." in place of the table, and the historical table or
    "No historical data available."; no table of trades and no download
    are drawn. *)
Theorem X11_result_without_trades repr now p result w symbol exchange percent :
  subscript p "symbol" = Ok symbol ->
  subscript p "exchange" = Ok exchange ->
  get (trades result) [] = [] ->
  win_rate_percent
    (get (winning_trades (get (summary result) empty_summary)) 0)
    (get (total_trades (get (summary result) empty_summary)) 1) = Ok percent ->
  render_results repr now p result w =
  (Ok tt,
   draw
     [ st_subheader ("Backtest Results for " ++ str_py repr symbol ++ " on "
                       ++ str_py repr exchange);
       st_metric "Total Trades"
         (str_int (get (total_trades (get (summary result) empty_summary)) 0));
       st_metric "Winning Trades"
         (str_int (get (winning_trades (get (summary result) empty_summary)) 0)
            ++ " (" ++ str_int percent ++ "%)");
       st_metric "Total Return"
         (Float.format_2f
            (get (total_profit_pct (get (summary result) empty_summary))
               (Float.of_int 0)) ++ "%");
       st_metric "Avg. Trade"
         (Float.format_2f
            (get (avg_profit_per_trade (get (summary result) empty_summary))
               (Float.of_int 0)) ++ "%");
       st_subheader "📊 Technical Analysis Plot";
       match get (plot result) "" with
       | EmptyString => st_info "No plot available."
       | plot_img => st_image ("data:image/png;base64," ++ plot_img)
       end;
       st_subheader "📋 Trade Details";
       st_info "No trades executed. Adjust parameters.";
       match get (data result) [] with
       | [] => st_info "No historical data available."
       | historical_data =>
           st_dataframe (DataFrame.from_records historical_data)
       end ]
     w).
Proof.
  intros Hsym Hex Htr Hwin.
  unfold render_results, summary_metrics, trade_details, bind, lift, emit.
  rewrite Hsym, Hex, Htr, Hwin. cbn [nonempty session page sent].
  unfold draw.
  destruct (get (plot result) "") as [ | c plot_img];
    destruct (get (data result) []) as [ | d historical_data];
    cbn [nonempty_str nonempty session page sent];
    rewrite <- !app_assoc; reflexivity.
Qed.

Lemma X11_witness :
  render_results sample_repr sample_now (payload sample_inputs ready_session)
    {| trades := Some []; data := None; plot := None; summary := None |}
    {| session := ready_session; page := []; sent := [] |} =
  (Ok tt,
   {| session := ready_session;
      page :=
        [ st_subheader "Backtest Results for BTC/USDT on binance";
          st_metric "Total Trades" "0";
          st_metric "Winning Trades" "0 (0%)";
          st_metric "Total Return" "0.00%";
          st_metric "Avg. Trade" "0.00%";
          st_subheader "📊 Technical Analysis Plot";
          st_info "No plot available.";
          st_subheader "📋 Trade Details";
          st_info "No trades executed. Adjust parameters.";
          st_info "No historical data available." ];
      sent := [] |}).
Proof.
  apply (X11_result_without_trades sample_repr sample_now
           (payload sample_inputs ready_session)
           {| trades := Some []; data := None; plot := None; summary := None |}
           {| session := ready_session; page := []; sent := [] |}
           (PStr "BTC/USDT") (PStr "binance") 0);
    reflexivity.
Defined.

(** ** The name of the download (line 209) *)

Lemma list_ascii_app s1 s2 :
  list_ascii_of_string (s1 ++ s2) =
  (list_ascii_of_string s1 ++ list_ascii_of_string s2)%list.
Proof. induction s1; simpl; congruence. Qed.

Lemma has_char_app c s1 s2 :
  has_char c (s1 ++ s2) = has_char c s1 || has_char c s2.
Proof. unfold has_char. now rewrite list_ascii_app, existsb_app. Qed.

Lemma has_char_remove c s : has_char c (remove_char c s) = false.
Proof.
  unfold has_char. induction s as [ | a s IH]; simpl; [ reflexivity | ].
  destruct (Ascii.eqb a c) eqn:E; [ exact IH | ].
  simpl. rewrite Ascii.eqb_sym, E. exact IH.
Qed.

Lemma digit_is_no_slash d :
  0 <= d <= 9 -> has_char "/"%char (Float.digit d) = false.
Proof.
  intros H.
  assert (E : d = 0 \/ d = 1 \/ d = 2 \/ d = 3 \/ d = 4 \/ d = 5 \/ d = 6 \/
              d = 7 \/ d = 8 \/ d = 9) by lia.
  repeat (destruct E as [-> | E]; [ reflexivity | ]). now subst.
Qed.

Lemma zero_pad2_has_no_slash n : has_char "/"%char (zero_pad2 n) = false.
Proof.
  unfold zero_pad2. rewrite has_char_app.
  pose proof (Z.mod_pos_bound n 10 ltac:(lia)).
  pose proof (Z.mod_pos_bound (n / 10) 10 ltac:(lia)).
  rewrite !digit_is_no_slash by lia. reflexivity.
Qed.

Lemma file_name_has_no_slash symbol now :
  has_char "/"%char (file_name (remove_char "/"%char symbol) now) = false.
Proof.
  unfold file_name, strftime_Ymd.
  rewrite !has_char_app, has_char_remove, !zero_pad2_has_no_slash.
  reflexivity.
Qed.

Lemma rerun_download_name repr backend now inputs ev s name :
  In name
    (download_names (page (snd (rerun repr backend now inputs ev s)))) ->
  name =
  file_name
    (remove_char "/"%char
       (get (selected_symbol
               (session (snd (rerun repr backend now inputs ev s))))
          "BTC/USDT"))
    now.
Proof.
  unfold rerun, script.
  set (w0 := {| session := apply_event ev s; page := []; sent := [] |}).
  unfold bind.
  pose proof (fetch_exchanges_downloads backend w0) as H1.
  destruct (fetch_exchanges backend w0) as [[[] | e] w1]; simpl in H1.
  - pose proof (exchange_and_symbol_downloads repr backend ev w1) as H2.
    destruct (exchange_and_symbol repr backend ev w1) as [[[] | e] w2];
      simpl in H2.
    + assert (Hw2 : downloads w2 = []) by (rewrite H2, H1; reflexivity).
      pose proof (results_column_named repr backend now inputs ev w2 Hw2) as H3.
      rewrite results_column_session. intros Hin.
      unfold named in H3. rewrite Forall_forall in H3. now apply H3.
    + simpl. change (download_names (page w2)) with (downloads w2).
      rewrite H2, H1. intros [].
  - simpl. change (download_names (page w1)) with (downloads w1).
    rewrite H1. intros [].
Qed.

(** X12.  The name of a download never holds a slash, whatever the
    symbol that was selected: every slash of the symbol is removed, and
    the rest of the name has none. *)
Theorem X12_download_name_has_no_slash repr backend now inputs ev s name :
  In name
    (download_names (page (snd (rerun repr backend now inputs ev s)))) ->
  has_char "/"%char name = false.
Proof.
  intros Hin.
  rewrite (rerun_download_name _ _ _ _ _ _ _ Hin).
  apply file_name_has_no_slash.
Qed.

Lemma X12_witness :
  In "trades_BTCUSDT20250105.csv"
    (download_names
       (page (snd (rerun sample_repr successful_backend sample_now
                     sample_inputs ClickRunBacktest ready_session)))) /\
  has_char "/"%char "trades_BTCUSDT20250105.csv" = false.
Proof.
  assert (Hin : In "trades_BTCUSDT20250105.csv"
                  (download_names
                     (page (snd (rerun sample_repr successful_backend sample_now
                                   sample_inputs ClickRunBacktest
                                   ready_session)))))
    by (vm_compute; left; reflexivity).
  split; [ exact Hin | ].
  apply (X12_download_name_has_no_slash sample_repr successful_backend
           sample_now sample_inputs ClickRunBacktest ready_session _ Hin).
Defined.

(** ** The displayed rows, and values that cannot be formatted *)

Lemma columns_present_labels trades :
  columns_present trades = true ->
  forall l, In l required_columns -> In l (DataFrame.labels_of trades).
Proof.
  unfold columns_present. rewrite forallb_forall. intros H l Hl.
  specialize (H l Hl). rewrite lacks_contains, negb_involutive in H.
  now apply contains_In.
Qed.

Lemma no_text_profit_numbers trades :
  no_text_profit trades = true ->
  forall d, In d trades -> exists x, cell_of d "profit_pct" = CNum x.
Proof.
  unfold no_text_profit. rewrite forallb_forall. intros H d Hd.
  specialize (H d Hd). unfold cell_of.
  destruct (lookup "profit_pct" d) as [[x | t] | ]; try discriminate.
  - now exists x.
  - now exists Float.nan.
Qed.

Lemma display_row_cells trades d :
  map (display_cell trades d) display_columns = display_row trades d.
Proof.
  unfold display_columns, display_row, display_cell, trade_cell. simpl.
  rewrite ?orb_false_r. reflexivity.
Qed.

(** X13.  The displayed table in closed form, for trades that have every
    required column somewhere and no [profit_pct] given as text: one row
    per trade, in order, of nine cells.  A field the trade has is shown as
    it is; a required field it lacks is NaN; an optional column is the
    empty string only when no trade has it, otherwise each trade shows its
    own value and NaN where it has none; [profit_pct] is the two-decimal
    text with a percent sign, "nan%" for a trade without it. *)
Theorem X13_displayed_rows trades :
  columns_present trades = true ->
  no_text_profit trades = true ->
  exists trade_df trade_df_display,
    shape_trades trades = Ok (trade_df, trade_df_display) /\
    DataFrame.rows trade_df_display = map (display_row trades) trades.
Proof.
  intros Hc Hn.
  exists (frame_of (trade_cell trades) (trade_columns trades) trades),
         (frame_of (display_cell trades) display_columns trades).
  split.
  - apply shape_trades_ok.
    + now apply columns_present_labels.
    + now apply no_text_profit_numbers.
  - simpl. apply map_ext. intros d. apply display_row_cells.
Qed.

Lemma X13_witness :
  columns_present [trade_with_rsi; trade_without_rsi] = true /\
  no_text_profit [trade_with_rsi; trade_without_rsi] = true /\
  exists trade_df trade_df_display,
    shape_trades [trade_with_rsi; trade_without_rsi] =
    Ok (trade_df, trade_df_display) /\
    DataFrame.rows trade_df_display =
    [ [CStr "BTC/USDT"; CStr "long"; CStr "10:00"; CNum (decimal 100 1);
       CNum (decimal 25 1); CStr "11:00"; CNum (decimal 1025 10); CStr "";
       CStr "nan%"];
      [CStr "BTC/USDT"; CStr "long"; CStr "12:00"; CNum (decimal 100 1);
       DataFrame.NaN; CStr "13:00"; CNum (decimal 1025 10); CStr "";
       CStr "2.50%"] ].
Proof.
  assert (Hc : columns_present [trade_with_rsi; trade_without_rsi] = true)
    by reflexivity.
  assert (Hn : no_text_profit [trade_with_rsi; trade_without_rsi] = true)
    by reflexivity.
  split; [ exact Hc | split; [ exact Hn | ] ].
  destruct (X13_displayed_rows [trade_with_rsi; trade_without_rsi] Hc Hn)
    as (trade_df & trade_df_display & H1 & H2).
  exists trade_df, trade_df_display. split; [ exact H1 | ].
  rewrite H2. reflexivity.
Defined.

Lemma result_map_raises {A B} (f : A -> result B) l x :
  (forall y, In y l ->
     (exists b, f y = Ok b) \/ (exists msg, f y = Raise (ValueError msg))) ->
  In x l ->
  (exists msg, f x = Raise (ValueError msg)) ->
  exists msg, result_map f l = Raise (ValueError msg).
Proof.
  induction l as [ | y l IH]; intros Hall Hin Hx; [ destruct Hin | ].
  simpl. destruct (Hall y (or_introl eq_refl)) as [[b Hb] | [msg Hmsg]].
  - rewrite Hb. simpl.
    destruct Hin as [-> | Hin].
    + destruct Hx as [msg Hmsg]. congruence.
    + destruct (IH (fun z Hz => Hall z (or_intror Hz)) Hin Hx) as [msg Hmsg].
      rewrite Hmsg. now exists msg.
  - rewrite Hmsg. now exists msg.
Qed.

Lemma percent_2f_outcome c :
  (exists v, percent_2f c = Ok v) \/
  (exists msg, percent_2f c = Raise (ValueError msg)).
Proof. destruct c; simpl; eauto. Qed.

(** X14.  A [profit_pct] that arrives as text cannot be formatted: with
    every required column present, one trade whose [profit_pct] is a
    string makes line 199 raise [ValueError], so no table is drawn for any
    of the trades. *)
Theorem X14_text_profit_raises trades d t :
  columns_present trades = true ->
  In d trades ->
  lookup "profit_pct" d = Some (CStr t) ->
  exists msg, shape_trades trades = Raise (ValueError msg).
Proof.
  intros Hc Hd Ht.
  pose proof (columns_present_labels trades Hc) as Hreq.
  unfold shape_trades. rewrite ensure_frame.
  rewrite getitem_frame by now apply display_columns_available.
  simpl result_bind. unfold DataFrame.apply_column.
  cbn [DataFrame.columns DataFrame.rows frame_of].
  assert (Hin : In "profit_pct" display_columns)
    by (unfold display_columns; simpl; tauto).
  rewrite (proj2 (contains_In _ _) Hin).
  match goal with
  | |- context [result_map ?f ?l] =>
      destruct (result_map_raises f l (map (trade_cell trades d) display_columns))
        as [msg Hmsg]
  end.
  - intros r _.
    destruct (percent_2f_outcome
                (DataFrame.at_label
                   (frame_of (trade_cell trades) display_columns trades) r
                   "profit_pct")) as [[v Hv] | [msg Hmsg]].
    + left. rewrite Hv. simpl. eauto.
    + right. rewrite Hmsg. simpl. eauto.
  - apply in_map_iff. now exists d.
  - unfold DataFrame.at_label. cbn [DataFrame.columns frame_of].
    rewrite nth_position by exact Hin.
    rewrite (trade_cell_own trades d "profit_pct" (CStr t) Hd Ht).
    simpl. eauto.
  - rewrite Hmsg. now exists msg.
Qed.

Lemma X14_witness :
  exists msg,
    shape_trades [sample_trade; trade_with_text_profit] =
    Raise (ValueError msg).
Proof.
  apply (X14_text_profit_raises [sample_trade; trade_with_text_profit]
           trade_with_text_profit "2.5").
  - reflexivity.
  - simpl. tauto.
  - reflexivity.
Defined.

(** ** The two decimals of [format(x, ".2f")] *)



(** 0.125 and 0.375 are ties: the first goes down to 0.12, the second up
    to 0.38. *)
Example percent_2f_ties :
  percent_2f (CNum (decimal 1 8)) = Ok (CStr "0.12%") /\
  percent_2f (CNum (decimal 3 8)) = Ok (CStr "0.38%") /\
  percent_2f (CNum (decimal (-3) 8)) = Ok (CStr "-0.38%").
Proof. repeat split. Qed.

Example format_2f_ties :
  Float.format_2f (decimal 1 8) = "0.12" /\
  Float.format_2f (decimal 3 8) = "0.38" /\
  Float.format_2f (decimal 2675 1000) = "2.67" /\
  Float.format_2f (decimal (-1) 1000) = "-0.00".
Proof. repeat split. Qed.

(** ** A session without exchanges *)

Lemma selectbox_nothing current : selectbox [] current = None.
Proof. now destruct current. Qed.

(** X17.  When the stored list of exchanges is empty the exchange box
    holds [None]: "Fetch Symbols" then asks for the symbols of the exchange
    "None", and a submission sends [None] as its exchange. *)
Theorem X17_no_exchange_to_select repr backend now inputs s :
  exchanges s = Some [] ->
  sent (snd (rerun repr backend now inputs ClickFetchSymbols s)) =
  [GET "http://127.0.0.1:8080/symbols?exchange=None"] /\
  exists request_body,
    sent (snd (rerun repr backend now inputs ClickRunBacktest s)) =
    [POST trade_url request_body] /\
    subscript request_body "exchange" = Ok PNone.
Proof.
  intros H. split.
  - rewrite (sent_when_loaded _ _ _ _ _ _ _ H). simpl.
    now rewrite selectbox_nothing.
  - exists (payload inputs
              (session (snd (rerun repr backend now inputs ClickRunBacktest s)))).
    split; [ now rewrite (sent_when_loaded _ _ _ _ _ _ _ H) | ].
    rewrite (rerun_session_without_fetch repr backend now inputs
               ClickRunBacktest s [] H eq_refl).
    simpl. now rewrite selectbox_nothing.
Qed.

Lemma X17_witness :
  sent (snd (rerun sample_repr successful_backend sample_now sample_inputs
               ClickFetchSymbols session_without_exchanges)) =
  [GET "http://127.0.0.1:8080/symbols?exchange=None"].
Proof.
  apply (X17_no_exchange_to_select sample_repr successful_backend sample_now
           sample_inputs session_without_exchanges).
  reflexivity.
Defined.
